(** * A Gemini-to-OpenAI translation proxy: model and verified properties

    Shallow embedding of [examples/llm-proxies/openai-gpt4-proxy.py]: the
    handler class [LLMProxyHandler] with its request translation
    ([_convert_gemini_to_openai]), response translation
    ([_convert_openai_to_gemini]), outbound call ([_make_openai_request]),
    endpoint test ([_is_gemini_api_request]) and [do_POST].

    Decoded JSON documents are values of type [json]; Python dictionaries
    are association lists in insertion order; Python exceptions are values
    of type [pyexc] carried on the left of a sum. *)

From Stdlib Require Import String Ascii ZArith List Bool DecimalString.
From Stdlib Require Import Lia.
Import ListNotations.
Local Open Scope list_scope.
Local Open Scope string_scope.

Set Implicit Arguments.
Set Warnings "-register-all".

(* ===================================================================== *)
(** ** Strings as Python uses them *)
(* ===================================================================== *)

(** Characters are code points below 256.  In that range [str.strip()]
    removes the code points for which [str.isspace()] holds:
    U+0009..U+000D, U+001C..U+0020, U+0085 and U+00A0. *)
Definition is_space (c : ascii) : bool :=
  let n := nat_of_ascii c in
  (((9 <=? n) && (n <=? 13)) || ((28 <=? n) && (n <=? 32))
   || (n =? 133) || (n =? 160))%nat.

Definition str_nonempty (s : string) : bool :=
  match s with EmptyString => false | String _ _ => true end.

Fixpoint lstrip (s : string) : string :=
  match s with
  | EmptyString => EmptyString
  | String c s' => if is_space c then lstrip s' else s
  end.

Fixpoint rstrip (s : string) : string :=
  match s with
  | EmptyString => EmptyString
  | String c s' =>
      let r := rstrip s' in
      if is_space c && negb (str_nonempty r) then EmptyString else String c r
  end.

(** [s.strip()] *)
Definition strip (s : string) : string := rstrip (lstrip s).

Fixpoint all_space (s : string) : bool :=
  match s with
  | EmptyString => true
  | String c s' => is_space c && all_space s'
  end.

(** [s.startswith(p)] *)
Fixpoint startswith (p s : string) : bool :=
  match p, s with
  | EmptyString, _ => true
  | String a p', String b s' => Ascii.eqb a b && startswith p' s'
  | String _ _, EmptyString => false
  end.

(** [needle in hay] for two strings: [needle] occurs at some offset. *)
Fixpoint str_contains (needle hay : string) : bool :=
  startswith needle hay
  || match hay with
     | EmptyString => false
     | String _ hay' => str_contains needle hay'
     end.

(** The characters of a string, as Python yields them when a string is
    iterated. *)
Fixpoint chars (s : string) : list string :=
  match s with
  | EmptyString => []
  | String c s' => String c EmptyString :: chars s'
  end.

(** The line feed of the literal ["\n"]. *)
Definition LF : string := String (ascii_of_nat 10) EmptyString.

(* ===================================================================== *)
(** ** Decoded JSON values *)
(* ===================================================================== *)

(** What [json.loads] returns.  [JFloat m e] stands for the finite float
    written [m * 10^e], taken to be zero only when [m] is; [JObj] lists the
    items of a [dict] in insertion order. *)
Inductive json : Type :=
| JNull
| JBool (b : bool)
| JInt (z : Z)
| JFloat (m e : Z)
| JStr (s : string)
| JArr (items : list json)
| JObj (fields : list (string * json)).

(** [d.get(k)] on the items of a dictionary. *)
Fixpoint lookup (k : string) (fields : list (string * json)) : option json :=
  match fields with
  | [] => None
  | (k', v) :: rest => if String.eqb k k' then Some v else lookup k rest
  end.

(** [d.get(k, default)] on the items of a dictionary. *)
Definition dict_get (fields : list (string * json)) (k : string)
    (default : json) : json :=
  match lookup k fields with
  | Some x => x
  | None => default
  end.

(** [d[k] = v] on the items of a dictionary: a key already present keeps
    its place and takes the new value, a new key goes last. *)
Fixpoint dict_set (k : string) (v : json) (fields : list (string * json))
  : list (string * json) :=
  match fields with
  | [] => [(k, v)]
  | (k', v') :: rest =>
      if String.eqb k k' then (k, v) :: rest else (k', v') :: dict_set k v rest
  end.

(** [v == s] for a string literal [s]: only the equal string compares
    equal. *)
Definition is_str (v : json) (s : string) : bool :=
  match v with
  | JStr t => String.eqb t s
  | _ => false
  end.

(** Truth value of a decoded JSON value ([if v:], [not v]). *)
Definition py_truthy (v : json) : bool :=
  match v with
  | JNull => false
  | JBool b => b
  | JInt z => negb (z =? 0)%Z
  | JFloat m _ => negb (m =? 0)%Z
  | JStr s => str_nonempty s
  | JArr items => match items with [] => false | _ => true end
  | JObj fields => match fields with [] => false | _ => true end
  end.

(* ===================================================================== *)
(** ** Exceptions *)
(* ===================================================================== *)

(** Errors raised by the interpreter and the [json] module on ill-shaped
    values; each records the offending value. *)
Inductive builtin_error : Type :=
| AttributeError (v : json) (attr : string)  (* v.attr on a value without it *)
| NotIterable (v : json)                     (* for x in v *)
| NotContainer (v : json)                    (* k in v *)
| NotSubscriptable (v : json)                (* v[i] *)
| BadIndex (v : json) (i : json)             (* str or list indexed by i *)
| KeyError (i : json)                        (* d[i], i not a key *)
| IndexError (v : json)                      (* v[0] on an empty str or list *)
| ConcatError (v : json)                     (* str += v, v not a str *)
| JSONTypeError (v : json)                   (* json.loads(v), v not a str *)
| JSONDecodeError (doc : string).            (* json.loads(doc), doc malformed *)

(** Every exception of the model is an instance of Python's [Exception]. *)
Inductive pyexc : Type :=
| Builtin (b : builtin_error)
| Exception_ (msg : string)          (* raise Exception(msg) *)
| RequestException (msg : string)    (* requests.exceptions.RequestException *)
| IOException (msg : string).        (* raised by input or output *)

Definition result (A : Type) : Type := (pyexc + A)%type.

Definition ret {A} (x : A) : result A := inr x.
Definition raise {A} (e : pyexc) : result A := inl e.
Definition bind {A B} (c : result A) (k : A -> result B) : result B :=
  match c with
  | inl e => inl e
  | inr x => k x
  end.

Notation "x <- c ;; k" := (bind c (fun x => k))
  (at level 61, c at next level, right associativity).

(** [for x in xs: s = body(s, x)], stopping at the first exception. *)
Fixpoint for_each {A S} (body : S -> A -> result S) (xs : list A) (s : S)
  : result S :=
  match xs with
  | [] => ret s
  | x :: xs' => s' <- body s x ;; for_each body xs' s'
  end.

(* ===================================================================== *)
(** ** Operations on values *)
(* ===================================================================== *)

(** [v.get(k, default)]: only dictionaries have [get]. *)
Definition py_get (v : json) (k : string) (default : json) : result json :=
  match v with
  | JObj fields => ret (dict_get fields k default)
  | _ => raise (Builtin (AttributeError v "get"))
  end.

(** [iter(v)], as a list: the items of a list, the keys of a dictionary,
    the characters of a string. *)
Definition py_iter (v : json) : result (list json) :=
  match v with
  | JArr items => ret items
  | JObj fields => ret (map (fun kv => JStr (fst kv)) fields)
  | JStr s => ret (map JStr (chars s))
  | _ => raise (Builtin (NotIterable v))
  end.

(** [k in v] for a string literal [k]: key test on a dictionary, substring
    test on a string, membership in a list. *)
Definition py_contains (k : string) (v : json) : result bool :=
  match v with
  | JObj fields =>
      ret (match lookup k fields with Some _ => true | None => false end)
  | JStr s => ret (str_contains k s)
  | JArr items => ret (existsb (fun x => is_str x k) items)
  | _ => raise (Builtin (NotContainer v))
  end.

(** [v[k]] for a string literal [k]. *)
Definition py_getitem (v : json) (k : string) : result json :=
  match v with
  | JObj fields =>
      match lookup k fields with
      | Some x => ret x
      | None => raise (Builtin (KeyError (JStr k)))
      end
  | JStr _ | JArr _ => raise (Builtin (BadIndex v (JStr k)))
  | _ => raise (Builtin (NotSubscriptable v))
  end.

(** [v[0]] *)
Definition py_first (v : json) : result json :=
  match v with
  | JArr (x :: _) => ret x
  | JStr (String c _) => ret (JStr (String c EmptyString))
  | JArr [] | JStr EmptyString => raise (Builtin (IndexError v))
  | JObj _ => raise (Builtin (KeyError (JInt 0)))
  | _ => raise (Builtin (NotSubscriptable v))
  end.

(** [s += v] on a string [s]. *)
Definition py_concat (s : string) (v : json) : result string :=
  match v with
  | JStr t => ret (s ++ t)
  | _ => raise (Builtin (ConcatError v))
  end.

(* ===================================================================== *)
(** ** What the interpreter and the configuration supply *)
(* ===================================================================== *)

(** Text produced by the interpreter and decoding done by the [json]
    module; the proxy uses them and does not define them.
    - [py_repr v] is [str(v)] for a value [v] that is not a string;
    - [builtin_msg b] is [str(e)] for the built-in exception [b];
    - [json_loads doc] is [json.loads(doc)], [None] when the document is
      not valid JSON. *)
Record runtime : Type := {
  py_repr : json -> string;
  builtin_msg : builtin_error -> string;
  json_loads : string -> option json
}.

(** The module-level configuration read from the process environment. *)
Record config : Type := {
  OPENAI_API_KEY : string;
  OPENAI_MODEL : string;
  OPENAI_BASE_URL : string
}.

Section Proxy.

Variable rt : runtime.
Variable cfg : config.

(** [str(e)] *)
Definition exc_str (e : pyexc) : string :=
  match e with
  | Builtin b => builtin_msg rt b
  | Exception_ msg => msg
  | RequestException msg => msg
  | IOException msg => msg
  end.

(** A value interpolated in an f-string: a string stands for itself. *)
Definition py_format (v : json) : string :=
  match v with
  | JStr s => s
  | _ => py_repr rt v
  end.

(** [json.loads(v)] *)
Definition py_json_loads (v : json) : result json :=
  match v with
  | JStr doc =>
      match json_loads rt doc with
      | Some x => ret x
      | None => raise (Builtin (JSONDecodeError doc))
      end
  | _ => raise (Builtin (JSONTypeError v))
  end.

(** The texts put before the message of a wrapped exception (lines 196
    and 255). *)
Definition request_error_prefix : string :=
  "Error converting Gemini to OpenAI format: ".
Definition response_error_prefix : string :=
  "Error converting OpenAI to Gemini format: ".

(** [try: c  except Exception as e: raise Exception(f'{prefix}{str(e)}')] *)
Definition reraise {A} (prefix : string) (c : result A) : result A :=
  match c with
  | inl e => raise (Exception_ (prefix ++ exc_str e))
  | inr x => ret x
  end.

(* --------------------------------------------------------------------- *)
(** *** Request direction: [_convert_gemini_to_openai] *)
(* --------------------------------------------------------------------- *)

(** Body of [for part in parts] (lines 154-158): the running
    [message_content] after one more part. *)
Definition add_part (message_content : string) (part : json) : result string :=
  has_text <- py_contains "text" part ;;
  message_content <-
    (if has_text : bool
     then t <- py_getitem part "text" ;; py_concat message_content t
     else ret message_content) ;;
  has_call <- py_contains "functionCall" part ;;
  if has_call : bool
  then call <- py_getitem part "functionCall" ;;
       name <- py_get call "name" (JStr "unknown") ;;
       ret (message_content ++ LF ++ "[Function Call: " ++ py_format name ++ "]")
  else ret message_content.

(** The message built at lines 161-164. *)
Definition openai_message (role : json) (content : string) : json :=
  JObj [("role", role); ("content", JStr content)].

(** Line 149. *)
Definition openai_role (role : json) : json :=
  if is_str role "model" then JStr "assistant" else role.

(** Lines 151-158: the text accumulated over the parts of one entry. *)
Definition message_content_of (content : json) : result string :=
  parts <- py_get content "parts" (JArr []) ;;
  parts <- py_iter parts ;;
  for_each add_part parts "".

(** Body of [for content in contents] (lines 146-164): the running
    [messages] after one more entry. *)
Definition add_content (messages : list json) (content : json)
  : result (list json) :=
  role <- py_get content "role" JNull ;;
  if is_str role "user" || is_str role "model"
  then
    message_content <- message_content_of content ;;
    if str_nonempty (strip message_content)
    then ret (messages ++ [openai_message (openai_role role)
                                          (strip message_content)])%list
    else ret messages
  else ret messages.

(** The tool entry built at lines 180-187. *)
Definition openai_tool (name description parameters : json) : json :=
  JObj [("type", JStr "function");
        ("function", JObj [("name", name);
                           ("description", description);
                           ("parameters", parameters)])].

(** Body of [for func_decl in function_declarations] (lines 179-187). *)
Definition add_func_decl (openai_tools : list json) (func_decl : json)
  : result (list json) :=
  name <- py_get func_decl "name" (JStr "unknown") ;;
  description <- py_get func_decl "description" (JStr "") ;;
  parameters <- py_get func_decl "parameters" (JObj []) ;;
  ret (openai_tools ++ [openai_tool name description parameters])%list.

(** Body of [for tool in tools] (lines 177-187). *)
Definition add_tool (openai_tools : list json) (tool : json)
  : result (list json) :=
  function_declarations <- py_get tool "functionDeclarations" (JArr []) ;;
  function_declarations <- py_iter function_declarations ;;
  for_each add_func_decl function_declarations openai_tools.

(** Lines 166-193: the request built around the translated messages. *)
Definition build_request (messages : list json) (tools generation_config : json)
  : result json :=
  temperature <- py_get generation_config "temperature" (JFloat 1 (-1)) ;;
  max_tokens <- py_get generation_config "maxOutputTokens" (JInt 4000) ;;
  let openai_request :=
    [("model", JStr (OPENAI_MODEL cfg));
     ("messages", JArr messages);
     ("stream", JBool false);
     ("temperature", temperature);
     ("max_tokens", max_tokens)] in
  if py_truthy tools
  then
    tools <- py_iter tools ;;
    openai_tools <- for_each add_tool tools [] ;;
    if py_truthy (JArr openai_tools)
    then ret (JObj (dict_set "tool_choice" (JStr "auto")
                      (dict_set "tools" (JArr openai_tools) openai_request)))
    else ret (JObj openai_request)
  else ret (JObj openai_request).

Definition _convert_gemini_to_openai (gemini_request : json) : result json :=
  reraise request_error_prefix
    (contents <- py_get gemini_request "contents" (JArr []) ;;
     tools <- py_get gemini_request "tools" (JArr []) ;;
     generation_config <- py_get gemini_request "generationConfig" (JObj []) ;;
     contents <- py_iter contents ;;
     messages <- for_each add_content contents [] ;;
     build_request messages tools generation_config).

(* --------------------------------------------------------------------- *)
(** *** Response direction: [_convert_openai_to_gemini] *)
(* --------------------------------------------------------------------- *)

(** Lines 218-221: [json.loads(function.get('arguments', '{}'))] under a
    bare [except], which turns every failure into the empty mapping. *)
Definition decode_arguments (function : json) : json :=
  match (arguments <- py_get function "arguments" (JStr "{}") ;;
         py_json_loads arguments) with
  | inr args => args
  | inl _ => JObj []
  end.

(** Body of [for tool_call in message['tool_calls']] (lines 216-228). *)
Definition add_tool_call (parts : list json) (tool_call : json)
  : result (list json) :=
  function <- py_get tool_call "function" (JObj []) ;;
  let args := decode_arguments function in
  name <- py_get function "name" (JStr "unknown") ;;
  ret (parts ++ [JObj [("functionCall",
                        JObj [("name", name); ("args", args)])]])%list.

(** Lines 206-228: the parts of the candidate, from the first choice. *)
Definition response_parts (choice : json) : result (list json) :=
  message <- py_get choice "message" (JObj []) ;;
  content <- py_get message "content" JNull ;;
  parts <-
    (if py_truthy content
     then text <- py_getitem message "content" ;; ret [JObj [("text", text)]]
     else ret []) ;;
  tool_calls <- py_get message "tool_calls" JNull ;;
  if py_truthy tool_calls
  then tool_calls <- py_getitem message "tool_calls" ;;
       tool_calls <- py_iter tool_calls ;;
       for_each add_tool_call tool_calls parts
  else ret parts.

(** Line 231. *)
Definition gemini_finish_reason (finish_reason : json) : string :=
  if is_str finish_reason "stop" then "STOP" else "OTHER".

(** The response built at lines 235-250. *)
Definition gemini_response (parts : list json) (finishReason : string)
    (prompt_tokens completion_tokens total_tokens : json) : json :=
  JObj [("candidates",
         JArr [JObj [("content", JObj [("parts", JArr parts);
                                       ("role", JStr "model")]);
                     ("finishReason", JStr finishReason);
                     ("index", JInt 0);
                     ("safetyRatings", JArr [])]]);
        ("usageMetadata",
         JObj [("promptTokenCount", prompt_tokens);
               ("candidatesTokenCount", completion_tokens);
               ("totalTokenCount", total_tokens)])].

Definition _convert_openai_to_gemini (openai_response : json) : result json :=
  reraise response_error_prefix
    (choices <- py_get openai_response "choices" (JArr []) ;;
     if negb (py_truthy choices)
     then raise (Exception_ "No choices in OpenAI response")
     else
       choice <- py_first choices ;;
       parts <- response_parts choice ;;
       finish_reason <- py_get choice "finish_reason" (JStr "stop") ;;
       usage <- py_get openai_response "usage" (JObj []) ;;
       prompt_tokens <- py_get usage "prompt_tokens" (JInt 0) ;;
       completion_tokens <- py_get usage "completion_tokens" (JInt 0) ;;
       total_tokens <- py_get usage "total_tokens" (JInt 0) ;;
       ret (gemini_response parts (gemini_finish_reason finish_reason)
              prompt_tokens completion_tokens total_tokens)).

(* --------------------------------------------------------------------- *)
(** *** Outbound call: [_make_openai_request] *)
(* --------------------------------------------------------------------- *)

(** What the proxy reads of a [requests] response: [status_code],
    [headers.get('content-type')], the outcome of [json()] and [text]. *)
Record response : Type := {
  status_code : Z;
  content_type : option string;
  response_json : result json;
  text : string
}.

(** [requests.post(url, headers=..., json=..., timeout=...)]: the network
    decides the outcome. *)
Variable requests_post :
  string -> list (string * string) -> json -> Z -> result response.

Definition _make_openai_request (openai_request : json) : result json :=
  match
    (let headers :=
       [("Content-Type", "application/json");
        ("Authorization", "Bearer " ++ OPENAI_API_KEY cfg);
        ("User-Agent", "DMTools-LLM-Proxy/1.0")] in
     let url := OPENAI_BASE_URL cfg ++ "/v1/chat/completions" in
     response <- requests_post url headers openai_request 60 ;;
     if negb (status_code response =? 200)%Z
     then
       error_data <-
         (if startswith "application/json"
               (match content_type response with Some t => t | None => "" end)
          then response_json response
          else ret (JStr (text response))) ;;
       raise (Exception_ ("OpenAI API error: "
                          ++ py_format (JInt (status_code response))
                          ++ " - " ++ py_format error_data))
     else response_json response)
  with
  | inl (RequestException msg) =>
      raise (Exception_ ("OpenAI request failed: " ++ msg))
  | outcome => outcome
  end.

(* --------------------------------------------------------------------- *)
(** *** The handler: [_is_gemini_api_request] and [do_POST] *)
(* --------------------------------------------------------------------- *)

(** The lines [do_POST] prints: ["Intercepting Gemini API call: <path>"]
    (line 90), ["Forwarding to OpenAI (<model>)"] (line 96), ["Request
    completed successfully"] (line 104) and ["Proxy error: <message>"]
    (line 114), each behind its pictogram. *)
Inductive log_line : Type :=
| LogIntercepting (path : string)
| LogForwarding (model : string)
| LogCompleted
| LogProxyError (message : string).

(** [print(line)]: standard output decides whether the line is written
    or the call raises (a closed pipe, an encoding that lacks the
    pictogram). *)
Variable py_print : log_line -> result unit.

(** An inbound POST: its path, and the outcome of reading and decoding
    the body (lines 87-88), which may raise. *)
Record http_request : Type := {
  path : string;
  read_body : result string
}.

(** What the handler sends: [send_response], the headers, and the JSON
    value dumped into the body. *)
Record http_response : Type := {
  status : Z;
  headers : list (string * string);
  body : json
}.

Definition _is_gemini_api_request (path : string) : bool :=
  str_contains "generateContent" path
  || str_contains "/v1/models/" path
  || str_contains "/v1beta/" path.

Definition json_headers : list (string * string) :=
  [("Content-Type", "application/json");
   ("Access-Control-Allow-Origin", "*")].

(** The reply of lines 79-83. *)
Definition not_gemini_response : http_response :=
  {| status := 404;
     headers := json_headers;
     body := JObj [("error", JStr "Not a Gemini API endpoint")] |}.

(** The reply of lines 107-111. *)
Definition ok_response (gemini_response : json) : http_response :=
  {| status := 200; headers := json_headers; body := gemini_response |}.

(** The reply of lines 116-128. *)
Definition error_response (e : pyexc) : http_response :=
  {| status := 500;
     headers := json_headers;
     body := JObj [("error",
                    JObj [("code", JInt 500);
                          ("message", JStr ("Proxy error: " ++ exc_str e));
                          ("status", JStr "INTERNAL_ERROR")])] |}.

(** The [try] block of [do_POST] (lines 77-111). *)
Definition do_POST_try (req : http_request) : result http_response :=
  if negb (_is_gemini_api_request (path req))
  then ret not_gemini_response
  else
    request_body <- read_body req ;;
    _ <- py_print (LogIntercepting (path req)) ;;
    gemini_request <- py_json_loads (JStr request_body) ;;
    openai_request <- _convert_gemini_to_openai gemini_request ;;
    _ <- py_print (LogForwarding (OPENAI_MODEL cfg)) ;;
    openai_response <- _make_openai_request openai_request ;;
    gemini_response <- _convert_openai_to_gemini openai_response ;;
    _ <- py_print LogCompleted ;;
    ret (ok_response gemini_response).

(** [do_POST]: the [try] block under [except Exception] (lines 113-128);
    the handler prints the error before it sends the reply.  A result on
    the left is an exception that leaves [do_POST] with no reply sent. *)
Definition do_POST (req : http_request) : result http_response :=
  match do_POST_try req with
  | inl e =>
      _ <- py_print (LogProxyError (exc_str e)) ;;
      ret (error_response e)
  | inr sent => ret sent
  end.

End Proxy.

(* --------------------------------------------------------------------- *)
(** *** The rest of the handler: [do_GET] *)
(* --------------------------------------------------------------------- *)

(** [do_GET] (lines 53-72) for a request path; [now] is the text of
    [datetime.now().isoformat()]. *)
Definition do_GET (cfg : config) (now : string) (path : string)
  : http_response :=
  if String.eqb path "/health"
  then {| status := 200;
          headers := [("Content-Type", "application/json");
                      ("Access-Control-Allow-Origin", "*")];
          body := JObj [("status", JStr "healthy");
                        ("proxy", JStr "openai-gpt4");
                        ("model", JStr (OPENAI_MODEL cfg));
                        ("timestamp", JStr now)] |}
  else {| status := 404;
          headers := [("Content-Type", "application/json")];
          body := JObj [("error", JStr "Not found")] |}.

(* --------------------------------------------------------------------- *)
(** *** Configuration at start-up (lines 30-36) *)
(* --------------------------------------------------------------------- *)

(** [os.getenv(name, default)] over the process environment [getenv]. *)
Definition os_getenv (getenv : string -> option string) (name : string)
    (default : string) : string :=
  match getenv name with
  | Some value => value
  | None => default
  end.

(** The three settings, or [None] when the module calls [sys.exit(1)]
    because [OPENAI_API_KEY] is unset or empty. *)
Definition load_config (getenv : string -> option string) : option config :=
  let api_key := getenv "OPENAI_API_KEY" in
  let model := os_getenv getenv "OPENAI_MODEL" "gpt-4o" in
  let base_url := os_getenv getenv "OPENAI_BASE_URL" "https://api.openai.com" in
  match api_key with
  | Some key =>
      if negb (str_nonempty key)
      then None
      else Some {| OPENAI_API_KEY := key;
                   OPENAI_MODEL := model;
                   OPENAI_BASE_URL := base_url |}
  | None => None
  end.

(* ===================================================================== *)
(** ** A runtime to run the model on concrete inputs *)
(* ===================================================================== *)

Module Sample.

Definition DQ : ascii := ascii_of_nat 34.

Definition type_name (v : json) : string :=
  match v with
  | JNull => "NoneType"
  | JBool _ => "bool"
  | JInt _ => "int"
  | JFloat _ _ => "float"
  | JStr _ => "str"
  | JArr _ => "list"
  | JObj _ => "dict"
  end.

Definition decimal (z : Z) : string := NilZero.string_of_int (Z.to_int z).

Fixpoint join (sep : string) (xs : list string) : string :=
  match xs with
  | [] => ""
  | [x] => x
  | x :: rest => x ++ sep ++ join sep rest
  end.

(** [repr(v)], exact for [None], booleans, integers and containers of
    them; strings are quoted without escapes and floats are shown as
    mantissa and exponent. *)
Fixpoint repr (v : json) : string :=
  match v with
  | JNull => "None"
  | JBool true => "True"
  | JBool false => "False"
  | JInt z => decimal z
  | JFloat m e => decimal m ++ "e" ++ decimal e
  | JStr s => "'" ++ s ++ "'"
  | JArr items => "[" ++ join ", " (map repr items) ++ "]"
  | JObj fields =>
      "{" ++ join ", "
               (map (fun kv => "'" ++ fst kv ++ "': " ++ repr (snd kv)) fields)
          ++ "}"
  end.

(** Message texts in the wording of CPython 3.12; a decoding error is
    reported without its position. *)
Definition msg (b : builtin_error) : string :=
  match b with
  | AttributeError v attr =>
      "'" ++ type_name v ++ "' object has no attribute '" ++ attr ++ "'"
  | NotIterable v => "'" ++ type_name v ++ "' object is not iterable"
  | NotContainer v => "argument of type '" ++ type_name v ++ "' is not iterable"
  | NotSubscriptable v => "'" ++ type_name v ++ "' object is not subscriptable"
  | BadIndex (JStr _) i =>
      "string indices must be integers, not '" ++ type_name i ++ "'"
  | BadIndex _ i =>
      "list indices must be integers or slices, not " ++ type_name i
  | KeyError i => repr i
  | IndexError (JStr _) => "string index out of range"
  | IndexError _ => "list index out of range"
  | ConcatError v =>
      "can only concatenate str (not " ++ String DQ (type_name v)
      ++ String DQ ") to str"
  | JSONTypeError v =>
      "the JSON object must be str, bytes or bytearray, not " ++ type_name v
  | JSONDecodeError _ => "Expecting value"
  end.

(** *** A decoder for a fragment of JSON

    Objects, arrays, strings without escapes, integers, [true], [false]
    and [null], separated by JSON white space.  Documents outside the
    fragment (floats, escaped strings) are reported as malformed. *)

Definition is_ws (c : ascii) : bool :=
  let n := nat_of_ascii c in
  ((n =? 32) || (n =? 9) || (n =? 10) || (n =? 13))%nat.

Fixpoint skip_ws (s : string) : string :=
  match s with
  | String c s' => if is_ws c then skip_ws s' else s
  | EmptyString => EmptyString
  end.

Definition is_digit (c : ascii) : bool :=
  let n := nat_of_ascii c in ((48 <=? n) && (n <=? 57))%nat.

Definition digit_value (c : ascii) : Z := Z.of_nat (nat_of_ascii c) - 48.

(** Digits at the head of [s], accumulated in [acc]. *)
Fixpoint read_digits (s : string) (acc : Z) : Z * string :=
  match s with
  | String c s' =>
      if is_digit c then read_digits s' (10 * acc + digit_value c) else (acc, s)
  | EmptyString => (acc, s)
  end.

Definition starts_number_tail (s : string) : bool :=
  match s with
  | String c _ =>
      is_digit c || Ascii.eqb c "." || Ascii.eqb c "e" || Ascii.eqb c "E"
  | EmptyString => false
  end.

(** An unsigned integer: a lone [0], or digits not starting with [0]. *)
Definition read_nat (s : string) : option (Z * string) :=
  match s with
  | String c s' =>
      if Ascii.eqb c "0"
      then if starts_number_tail s' then None else Some (0%Z, s')
      else if is_digit c
           then let '(n, rest) := read_digits s 0 in
                if starts_number_tail rest then None else Some (n, rest)
           else None
  | EmptyString => None
  end.

(** The characters up to the closing quote. *)
Fixpoint read_string (s : string) : option (string * string) :=
  match s with
  | EmptyString => None
  | String c s' =>
      if Ascii.eqb c DQ then Some (EmptyString, s')
      else if Ascii.eqb c "\" || (nat_of_ascii c <? 32)%nat then None
      else match read_string s' with
           | Some (t, rest) => Some (String c t, rest)
           | None => None
           end
  end.

Section Decoder.

Variable read_value : string -> option (json * string).

(** After an item of an array: [,] and one more item, or []]. *)
Fixpoint read_items (fuel : nat) (s : string) (acc : list json)
  : option (json * string) :=
  match fuel with
  | O => None
  | S fuel' =>
      match skip_ws s with
      | String c rest =>
          if Ascii.eqb c "]" then Some (JArr acc, rest)
          else if Ascii.eqb c ","
               then match read_value rest with
                    | Some (v, rest') => read_items fuel' rest' (acc ++ [v])%list
                    | None => None
                    end
               else None
      | EmptyString => None
      end
  end.

(** One [key: value] member of an object. *)
Definition read_member (s : string) (acc : list (string * json))
  : option (list (string * json) * string) :=
  match skip_ws s with
  | String c rest =>
      if Ascii.eqb c DQ
      then match read_string rest with
           | Some (k, rest') =>
               match skip_ws rest' with
               | String c' rest'' =>
                   if Ascii.eqb c' ":"
                   then match read_value rest'' with
                        | Some (v, rest3) => Some (dict_set k v acc, rest3)
                        | None => None
                        end
                   else None
               | EmptyString => None
               end
           | None => None
           end
      else None
  | EmptyString => None
  end.

(** After a member of an object: [,] and one more member, or [}]. *)
Fixpoint read_members (fuel : nat) (s : string) (acc : list (string * json))
  : option (json * string) :=
  match fuel with
  | O => None
  | S fuel' =>
      match skip_ws s with
      | String c rest =>
          if Ascii.eqb c "}" then Some (JObj acc, rest)
          else if Ascii.eqb c ","
               then match read_member rest acc with
                    | Some (acc', rest') => read_members fuel' rest' acc'
                    | None => None
                    end
               else None
      | EmptyString => None
      end
  end.

End Decoder.

Fixpoint read_value (fuel : nat) (s : string) : option (json * string) :=
  match fuel with
  | O => None
  | S fuel' =>
      match skip_ws s with
      | EmptyString => None
      | String c rest as s1 =>
          if Ascii.eqb c "[" then
            match skip_ws rest with
            | String "]" rest' => Some (JArr [], rest')
            | _ =>
                match read_value fuel' rest with
                | Some (v, rest') => read_items (read_value fuel') fuel' rest' [v]
                | None => None
                end
            end
          else if Ascii.eqb c "{" then
            match skip_ws rest with
            | String "}" rest' => Some (JObj [], rest')
            | _ =>
                match read_member (read_value fuel') rest [] with
                | Some (acc, rest') =>
                    read_members (read_value fuel') fuel' rest' acc
                | None => None
                end
            end
          else if Ascii.eqb c DQ then
            match read_string rest with
            | Some (t, rest') => Some (JStr t, rest')
            | None => None
            end
          else if Ascii.eqb c "-" then
            match read_nat rest with
            | Some (n, rest') => Some (JInt (- n), rest')
            | None => None
            end
          else if startswith "null" s1 then Some (JNull, substring 4 (String.length s1) s1)
          else if startswith "true" s1 then Some (JBool true, substring 4 (String.length s1) s1)
          else if startswith "false" s1 then Some (JBool false, substring 5 (String.length s1) s1)
          else match read_nat s1 with
               | Some (n, rest') => Some (JInt n, rest')
               | None => None
               end
      end
  end.

(** The whole document is one value, white space apart. *)
Definition loads (doc : string) : option json :=
  match read_value (S (String.length doc)) doc with
  | Some (v, rest) =>
      match skip_ws rest with
      | EmptyString => Some v
      | String _ _ => None
      end
  | None => None
  end.

Definition rt : runtime :=
  {| py_repr := repr; builtin_msg := msg; json_loads := loads |}.

Definition cfg : config :=
  {| OPENAI_API_KEY := "sk-test";
     OPENAI_MODEL := "gpt-4o";
     OPENAI_BASE_URL := "https://api.openai.com" |}.

(** A target that answers every call with the same response. *)
Definition reply (status_code : Z) (document : json) : response :=
  {| status_code := status_code;
     content_type := Some "application/json";
     response_json := inr document;
     text := "" |}.

Definition post_replying (r : response)
  : string -> list (string * string) -> json -> Z -> result response :=
  fun _ _ _ _ => inr r.

(** A target that cannot be reached. *)
Definition post_failing (reason : string)
  : string -> list (string * string) -> json -> Z -> result response :=
  fun _ _ _ _ => inl (RequestException reason).

(** Entries of [contents] used in the runs below. *)
Definition hello_entry : list (string * json) :=
  [("role", JStr "user"); ("parts", JArr [JObj [("text", JStr " hello ")]])].

Definition call_part : list (string * json) :=
  [("functionCall",
    JObj [("name", JStr "lookup"); ("args", JObj [("q", JStr "rocq")])])].

Definition call_entry : list (string * json) :=
  [("role", JStr "model"); ("parts", JArr [JObj call_part])].

Definition system_entry : list (string * json) :=
  [("role", JStr "system"); ("parts", JInt 3)].

Definition blank_entry : list (string * json) :=
  [("role", JStr "user"); ("parts", JArr [JObj [("text", JStr "  ")]])].

(** Function declarations and tools. *)
Definition search_decl : list (string * json) :=
  [("name", JStr "search"); ("description", JStr "Search the web");
   ("parameters", JObj [("type", JStr "object")])].

Definition bare_decl : list (string * json) := [("description", JStr "no name")].

Definition tool_of (decls : list (list (string * json))) : json :=
  JObj [("functionDeclarations", JArr (map JObj decls))].

(** Tool calls of a target response. *)
Definition bad_call : list (string * json) :=
  [("id", JStr "call_2");
   ("function", JObj [("name", JStr "lookup"); ("arguments", JStr "{oops")])].

Definition good_call : list (string * json) :=
  [("id", JStr "call_1");
   ("function", JObj [("name", JStr "search"); ("arguments", JStr "[1, 2]")])].

Definition usage : list (string * json) :=
  [("prompt_tokens", JInt 7); ("completion_tokens", JInt 5);
   ("total_tokens", JInt 12)].

Definition gemini_path : string := "/v1beta/models/gemini-pro:generateContent".

(** Double quotes written as single quotes, to spell JSON documents. *)
Fixpoint dq (s : string) : string :=
  match s with
  | EmptyString => EmptyString
  | String c s' => String (if Ascii.eqb c "'" then DQ else c) (dq s')
  end.

(** Parts of an entry: text, an image the proxy does not know, and a call
    that carries text as well. *)
Definition mixed_parts : list (list (string * json)) :=
  [[("text", JStr "Weather in ")];
   [("inlineData", JObj [("mimeType", JStr "image/png")])];
   [("text", JStr "Oslo?");
    ("functionCall", JObj [("args", JObj [("city", JStr "Oslo")])])]].

Definition mixed_entry : list (string * json) :=
  [("role", JStr "user"); ("parts", JArr (map JObj mixed_parts))].

(** An entry whose text is a number. *)
Definition numeric_text_entry : list (string * json) :=
  [("role", JStr "user"); ("parts", JArr [JObj [("text", JInt 5)]])].

(** A process environment with the key and a base URL, but no model. *)
Definition environment (name : string) : option string :=
  if String.eqb name "OPENAI_API_KEY" then Some "sk-test"
  else if String.eqb name "OPENAI_BASE_URL" then Some "http://localhost:11434"
  else None.

(** A target that answers 503 with an HTML page. *)
Definition unavailable : response :=
  {| status_code := 503;
     content_type := Some "text/html";
     response_json := inl (RequestException "Expecting value");
     text := "<h1>Service Unavailable</h1>" |}.

(** A request with a client-side model name, a temperature and one
    tool, and its translation. *)
Definition chat_request : json :=
  JObj [("model", JStr "gemini-pro");
        ("contents", JArr [JObj hello_entry; JObj call_entry;
                           JObj system_entry]);
        ("generationConfig", JObj [("temperature", JFloat 7 (-1))]);
        ("tools", JArr [tool_of [search_decl]])].

Definition chat_request_translated : json :=
  JObj [("model", JStr "gpt-4o");
        ("messages",
         JArr [JObj [("role", JStr "user"); ("content", JStr "hello")];
               JObj [("role", JStr "assistant");
                     ("content", JStr "[Function Call: lookup]")]]);
        ("stream", JBool false);
        ("temperature", JFloat 7 (-1));
        ("max_tokens", JInt 4000);
        ("tools",
         JArr [openai_tool (JStr "search") (JStr "Search the web")
                           (JObj [("type", JStr "object")])]);
        ("tool_choice", JStr "auto")].

(** A response of the target with two choices, and its translation. *)
Definition first_message : list (string * json) :=
  [("content", JStr "Looking it up.");
   ("tool_calls", JArr [JObj good_call; JObj bad_call])].

Definition first_choice : list (string * json) :=
  [("message", JObj first_message); ("finish_reason", JStr "tool_calls")].

Definition chat_response : list (string * json) :=
  [("id", JStr "chatcmpl-1");
   ("choices", JArr [JObj first_choice;
                     JObj [("message", JObj [("content", JStr "second")])]]);
   ("usage", JObj usage)].

Definition chat_response_translated : json :=
  gemini_response
    [JObj [("text", JStr "Looking it up.")];
     JObj [("functionCall",
            JObj [("name", JStr "search"); ("args", JArr [JInt 1; JInt 2])])];
     JObj [("functionCall",
            JObj [("name", JStr "lookup"); ("args", JObj [])])]]
    "OTHER" (JInt 7) (JInt 5) (JInt 12).

(** A tool call whose arguments are a mapping, not a string. *)
Definition decoded_call : list (string * json) :=
  [("function",
    JObj [("name", JStr "search");
          ("arguments", JObj [("q", JStr "rocq")])])].

(** Standard output that takes every line, and one whose reader has
    gone. *)
Definition stdout_open : log_line -> result unit := fun _ => inr tt.

Definition stdout_closed : log_line -> result unit :=
  fun _ => inl (IOException "[Errno 32] Broken pipe").

Definition gemini_post : http_request :=
  {| path := gemini_path;
     read_body := inr (dq "{'contents': []}") |}.

End Sample.

(* ===================================================================== *)
(** ** Vocabulary of the statements *)
(* ===================================================================== *)

(** [needle] occurs in [hay]: some text before it, some text after it. *)
Definition occurs_in (needle hay : string) : Prop :=
  exists before after, hay = before ++ needle ++ after.

(** The [messages] field of a translated request. *)
Definition messages_of (openai_request : json) : option json :=
  match openai_request with
  | JObj fields => lookup "messages" fields
  | _ => None
  end.

(** The messages translated from the [contents] field of a request. *)
Definition translated_messages (rt : runtime) (fields : list (string * json))
  : result (list json) :=
  contents <- py_iter (dict_get fields "contents" (JArr [])) ;;
  for_each (add_content rt) contents [].

(** [tool] is a mapping whose [functionDeclarations] (none when the key is
    absent) are the mappings [decls]. *)
Definition declares (tool : json) (decls : list (list (string * json))) : Prop :=
  exists fields,
    tool = JObj fields
    /\ dict_get fields "functionDeclarations" (JArr []) = JArr (map JObj decls).

(** The target entry of one declaration, with the defaults of the
    specification for a missing name, description or parameters. *)
Definition tool_entry (decl : list (string * json)) : json :=
  JObj [("type", JStr "function");
        ("function",
         JObj [("name", dict_get decl "name" (JStr "unknown"));
               ("description", dict_get decl "description" (JStr ""));
               ("parameters", dict_get decl "parameters" (JObj []))])].

(** Every declaration of every tool, in order, as one sequence. *)
Definition flattened (declss : list (list (list (string * json)))) : list json :=
  map tool_entry (concat declss).

(** The first five fields of every translated request. *)
Definition base_request (cfg : config) (messages : list json)
    (generation_config : list (string * json)) : list (string * json) :=
  [("model", JStr (OPENAI_MODEL cfg));
   ("messages", JArr messages);
   ("stream", JBool false);
   ("temperature", dict_get generation_config "temperature" (JFloat 1 (-1)));
   ("max_tokens", dict_get generation_config "maxOutputTokens" (JInt 4000))].

(** [finishReason] of the first candidate of a translated response. *)
Definition finish_reason_of (gemini : json) : option json :=
  match gemini with
  | JObj fields =>
      match lookup "candidates" fields with
      | Some (JArr (JObj candidate :: _)) => lookup "finishReason" candidate
      | _ => None
      end
  | _ => None
  end.

(** The part emitted for a tool call. *)
Definition function_call_part (name args : json) : json :=
  JObj [("functionCall", JObj [("name", name); ("args", args)])].

(** The error envelope of the specification for a message text. *)
Definition error_envelope (message : string) : json :=
  JObj [("error",
         JObj [("code", JInt 500);
               ("message", JStr message);
               ("status", JStr "INTERNAL_ERROR")])].

(** A field of a mapping. *)
Definition json_field (v : json) (k : string) : option json :=
  match v with
  | JObj fields => lookup k fields
  | _ => None
  end.

(** A message of the target schema, [{role, content}]. *)
Definition chat_message (role content : string) : json :=
  JObj [("role", JStr role); ("content", JStr content)].

(** A message of the target schema whose role is ["user"] or
    ["assistant"] and whose content is not empty and has no white space
    at either end. *)
Definition target_message (m : json) : Prop :=
  exists role content,
    m = chat_message role content
    /\ (role = "user" \/ role = "assistant")
    /\ content <> ""
    /\ strip content = content.

(** A response of the source schema: one candidate with role ["model"],
    index 0 and no safety ratings, and the usage metadata. *)
Definition source_response (parts : list json) (finishReason : string)
    (usageMetadata : json) : json :=
  JObj [("candidates",
         JArr [JObj [("content", JObj [("parts", JArr parts);
                                       ("role", JStr "model")]);
                     ("finishReason", JStr finishReason);
                     ("index", JInt 0);
                     ("safetyRatings", JArr [])]]);
        ("usageMetadata", usageMetadata)].

(** The texts of a list, one after the other. *)
Definition join_all (texts : list string) : string :=
  fold_right append "" texts.

(** A part whose [text], if any, is a string and whose [functionCall], if
    any, is a mapping. *)
Definition plain_part (part : list (string * json)) : bool :=
  match lookup "text" part with
  | None | Some (JStr _) => true
  | Some _ => false
  end
  && match lookup "functionCall" part with
     | None | Some (JObj _) => true
     | Some _ => false
     end.

(** What a plain part adds to the content of its entry: its text, then
    the marker of its call. *)
Definition part_text (rt : runtime) (part : list (string * json)) : string :=
  match lookup "text" part with
  | Some (JStr t) => t
  | _ => ""
  end
  ++ match lookup "functionCall" part with
     | Some (JObj call) =>
         LF ++ "[Function Call: "
            ++ py_format rt (dict_get call "name" (JStr "unknown")) ++ "]"
     | _ => ""
     end.

(** A part of the source schema as the response translation builds it: a
    text part with a truthy value, or a function call. *)
Definition source_part (p : json) : Prop :=
  (exists v, p = JObj [("text", v)] /\ py_truthy v = true)
  \/ (exists name args, p = function_call_part name args).

(** The usage counts of a target response, with [0] for a missing one. *)
Definition usage_metadata (usage : list (string * json)) : json :=
  JObj [("promptTokenCount", dict_get usage "prompt_tokens" (JInt 0));
        ("candidatesTokenCount", dict_get usage "completion_tokens" (JInt 0));
        ("totalTokenCount", dict_get usage "total_tokens" (JInt 0))].

(** The arguments [_make_openai_request] passes to [requests.post]. *)
Definition outbound_url (cfg : config) : string :=
  OPENAI_BASE_URL cfg ++ "/v1/chat/completions".

Definition outbound_headers (cfg : config) : list (string * string) :=
  [("Content-Type", "application/json");
   ("Authorization", "Bearer " ++ OPENAI_API_KEY cfg);
   ("User-Agent", "DMTools-LLM-Proxy/1.0")].

(** *** The stages of a POST and the exceptions they raise *)

Section PipelineStages.

Variable rt : runtime.
Variable cfg : config.
Variable requests_post :
  string -> list (string * string) -> json -> Z -> result response.
Variable py_print : log_line -> result unit.
Variable req : http_request.

(** The body was read, announced and decoded as [gemini_request]. *)
Definition decoded (gemini_request : json) : Prop :=
  exists request_body,
    read_body req = inr request_body
    /\ py_print (LogIntercepting (path req)) = inr tt
    /\ json_loads rt request_body = Some gemini_request.

(** The request was translated to [openai_request]. *)
Definition translated (openai_request : json) : Prop :=
  exists gemini_request,
    decoded gemini_request
    /\ _convert_gemini_to_openai rt cfg gemini_request = inr openai_request.

(** The call was announced and the target answered [openai_response]. *)
Definition called (openai_response : json) : Prop :=
  exists openai_request,
    translated openai_request
    /\ py_print (LogForwarding (OPENAI_MODEL cfg)) = inr tt
    /\ _make_openai_request rt cfg requests_post openai_request
       = inr openai_response.

(** The answer was translated back to [gemini_response]. *)
Definition answered (gemini_response : json) : Prop :=
  exists openai_response,
    called openai_response
    /\ _convert_openai_to_gemini rt openai_response = inr gemini_response.

(** An exception raised in the POST pipeline: while reading the body,
    decoding it, translating the request, calling the target or
    translating its response, or by one of the three prints on the way. *)
Inductive raised_in_pipeline : pyexc -> Prop :=
| raised_reading e :
    read_body req = inl e ->
    raised_in_pipeline e
| raised_announcing request_body e :
    read_body req = inr request_body ->
    py_print (LogIntercepting (path req)) = inl e ->
    raised_in_pipeline e
| raised_decoding request_body :
    read_body req = inr request_body ->
    py_print (LogIntercepting (path req)) = inr tt ->
    json_loads rt request_body = None ->
    raised_in_pipeline (Builtin (JSONDecodeError request_body))
| raised_translating_request gemini_request e :
    decoded gemini_request ->
    _convert_gemini_to_openai rt cfg gemini_request = inl e ->
    raised_in_pipeline e
| raised_announcing_call openai_request e :
    translated openai_request ->
    py_print (LogForwarding (OPENAI_MODEL cfg)) = inl e ->
    raised_in_pipeline e
| raised_calling openai_request e :
    translated openai_request ->
    py_print (LogForwarding (OPENAI_MODEL cfg)) = inr tt ->
    _make_openai_request rt cfg requests_post openai_request = inl e ->
    raised_in_pipeline e
| raised_translating_response openai_response e :
    called openai_response ->
    _convert_openai_to_gemini rt openai_response = inl e ->
    raised_in_pipeline e
| raised_announcing_success gemini_response e :
    answered gemini_response ->
    py_print LogCompleted = inl e ->
    raised_in_pipeline e.

End PipelineStages.

(* ===================================================================== *)
(** ** Facts about strings *)
(* ===================================================================== *)

Lemma startswith_iff (p s : string) :
  startswith p s = true <-> exists t, s = p ++ t.
Proof.
  revert s; induction p as [|a p IH]; intros s; simpl.
  - split; [intros _; exists s; reflexivity | reflexivity].
  - destruct s as [|b s].
    + split; [discriminate | intros [t Ht]; discriminate].
    + rewrite andb_true_iff, Ascii.eqb_eq, IH. split.
      * intros [-> [t ->]]. exists t. reflexivity.
      * intros [t Ht]. injection Ht as -> ->. split; [reflexivity | eauto].
Qed.

Lemma str_contains_iff (needle hay : string) :
  str_contains needle hay = true <-> occurs_in needle hay.
Proof.
  unfold occurs_in. induction hay as [|c hay IH].
  - simpl. rewrite orb_false_r, startswith_iff. split.
    + intros [t Ht]. exists "", t. exact Ht.
    + intros [[|b before] [after H]]; [eauto | discriminate].
  - cbn [str_contains]. rewrite orb_true_iff, startswith_iff, IH. split.
    + intros [[t Ht] | [before [after H]]].
      * exists "", t. exact Ht.
      * exists (String c before), after. simpl. now rewrite H.
    + intros [[|b before] [after H]].
      * left. exists after. exact H.
      * right. simpl in H. injection H as _ H. eauto.
Qed.

Lemma lstrip_all_space (s : string) : all_space (lstrip s) = all_space s.
Proof.
  induction s as [|c s IH]; simpl; [reflexivity|].
  destruct (is_space c) eqn:Hc; simpl; [exact IH | now rewrite Hc].
Qed.

Lemma rstrip_empty_iff (s : string) : rstrip s = "" <-> all_space s = true.
Proof.
  induction s as [|c s IH]; simpl; [tauto|].
  destruct (is_space c); simpl.
  - destruct (rstrip s) eqn:Hr; simpl.
    + split; [intros _; now apply IH | reflexivity].
    + split; [discriminate|]. intros H. apply IH in H. discriminate.
  - split; discriminate.
Qed.

(** A string strips to the empty string exactly when every character of
    it is white space. *)
Lemma strip_empty_iff (s : string) : strip s = "" <-> all_space s = true.
Proof. unfold strip. now rewrite rstrip_empty_iff, lstrip_all_space. Qed.

(* ===================================================================== *)
(** ** Facts about dictionaries and loops *)
(* ===================================================================== *)

Lemma lookup_dict_set_same k v fields : lookup k (dict_set k v fields) = Some v.
Proof.
  induction fields as [|[k' v'] rest IH]; simpl.
  - now rewrite String.eqb_refl.
  - destruct (String.eqb k k') eqn:E; simpl; rewrite ?String.eqb_refl, ?E; auto.
Qed.

Lemma lookup_dict_set_other k k' v fields :
  k' <> k -> lookup k' (dict_set k v fields) = lookup k' fields.
Proof.
  intros Hne. induction fields as [|[k0 v0] rest IH]; simpl.
  - apply String.eqb_neq in Hne. now rewrite Hne.
  - destruct (String.eqb k k0) eqn:E; simpl.
    + apply String.eqb_eq in E. subst k0.
      apply String.eqb_neq in Hne. now rewrite Hne.
    + now rewrite IH.
Qed.

Lemma dict_get_dict_set_same k v d fields :
  dict_get (dict_set k v fields) k d = v.
Proof. unfold dict_get. now rewrite lookup_dict_set_same. Qed.

Lemma dict_get_dict_set_other k k' v d fields :
  k' <> k -> dict_get (dict_set k v fields) k' d = dict_get fields k' d.
Proof. intros H. unfold dict_get. now rewrite lookup_dict_set_other. Qed.

Lemma is_str_true_iff v s : is_str v s = true <-> v = JStr s.
Proof.
  destruct v; simpl; try (split; [discriminate | intros H; discriminate]).
  rewrite String.eqb_eq. split; [now intros -> | now intros [= ->]].
Qed.

Lemma is_str_false_iff v s : is_str v s = false <-> v <> JStr s.
Proof.
  rewrite <- is_str_true_iff. destruct (is_str v s); split; congruence.
Qed.

Lemma for_each_app {A S} (body : S -> A -> result S) xs ys s :
  for_each body (xs ++ ys)%list s
  = (s' <- for_each body xs s ;; for_each body ys s').
Proof.
  revert s; induction xs as [|x xs IH]; intros s; simpl; [reflexivity|].
  destruct (body s x); simpl; auto.
Qed.

(** A loop whose body only appends to its accumulator can be run from the
    empty list and its output appended afterwards. *)
Lemma for_each_appending {A B} (body : list B -> A -> result (list B)) :
  (forall acc x, body acc x = (ys <- body [] x ;; ret (acc ++ ys)%list)) ->
  forall xs acc,
    for_each body xs acc = (ys <- for_each body xs [] ;; ret (acc ++ ys)%list).
Proof.
  intros Hbody xs. induction xs as [|x xs IH]; intros acc; simpl.
  - unfold ret. now rewrite app_nil_r.
  - rewrite (Hbody acc x). destruct (body [] x) as [e|ys]; simpl; [reflexivity|].
    rewrite (IH (acc ++ ys)%list), (IH ys).
    destruct (for_each body xs []) as [e|zs]; simpl; [reflexivity|].
    unfold ret. now rewrite app_assoc.
Qed.

(* ===================================================================== *)
(** ** Request translation *)
(* ===================================================================== *)

Section RequestTranslation.

Variable rt : runtime.
Variable cfg : config.

(** The translation of a mapping, from the three fields it reads. *)
Lemma convert_request_eq (fields : list (string * json)) :
  _convert_gemini_to_openai rt cfg (JObj fields)
  = reraise rt request_error_prefix
      (messages <- translated_messages rt fields ;;
       build_request cfg messages
         (dict_get fields "tools" (JArr []))
         (dict_get fields "generationConfig" (JObj []))).
Proof.
  unfold _convert_gemini_to_openai, translated_messages. simpl.
  now destruct (py_iter (dict_get fields "contents" (JArr []))).
Qed.

Lemma add_content_appends (acc : list json) (content : json) :
  add_content rt acc content
  = (ys <- add_content rt [] content ;; ret (acc ++ ys)%list).
Proof.
  unfold add_content.
  destruct (py_get content "role" JNull) as [e|role]; simpl; [reflexivity|].
  destruct (is_str role "user" || is_str role "model"); simpl.
  - destruct (message_content_of rt content) as [e|text]; simpl; [reflexivity|].
    destruct (str_nonempty (strip text)); simpl; unfold ret;
      now rewrite ?app_nil_r.
  - unfold ret. now rewrite app_nil_r.
Qed.

Lemma for_each_add_content_appends (contents acc : list json) :
  for_each (add_content rt) contents acc
  = (ys <- for_each (add_content rt) contents [] ;; ret (acc ++ ys)%list).
Proof. apply for_each_appending, add_content_appends. Qed.

(** The messages of a sequence with one entry singled out. *)
Lemma for_each_add_content_split pre entry post before emitted after :
  for_each (add_content rt) pre [] = inr before ->
  add_content rt [] entry = inr emitted ->
  for_each (add_content rt) post [] = inr after ->
  for_each (add_content rt) (pre ++ entry :: post)%list []
  = inr (before ++ emitted ++ after)%list.
Proof.
  intros Hpre Hentry Hpost.
  rewrite for_each_app, Hpre. simpl.
  rewrite add_content_appends, Hentry. simpl.
  rewrite for_each_add_content_appends, Hpost. simpl.
  now rewrite app_assoc.
Qed.

(** Whatever [build_request] returns carries the messages it was given. *)
Lemma build_request_messages messages tools generation_config out :
  build_request cfg messages tools generation_config = inr out ->
  messages_of out = Some (JArr messages).
Proof.
  unfold build_request.
  destruct (py_get generation_config "temperature" _) as [e|t]; simpl;
    [discriminate|].
  destruct (py_get generation_config "maxOutputTokens" _) as [e|m]; simpl;
    [discriminate|].
  destruct (py_truthy tools); simpl.
  - destruct (py_iter tools) as [e|ts]; simpl; [discriminate|].
    destruct (for_each (add_tool) ts []) as [e|[|o os]]; simpl;
      [discriminate | |]; intros [= <-]; reflexivity.
  - intros [= <-]. reflexivity.
Qed.

Lemma reraise_inr {A} pfx (c : result A) x : reraise rt pfx c = inr x -> c = inr x.
Proof. destruct c; simpl; [discriminate | auto]. Qed.

(** An entry that leaves the running messages as they are can be removed
    from [contents] without changing the outcome of the translation. *)
Lemma convert_request_drop_entry fields pre entry post :
  (forall acc, add_content rt acc entry = inr acc) ->
  lookup "contents" fields = Some (JArr (pre ++ entry :: post)%list) ->
  _convert_gemini_to_openai rt cfg (JObj fields)
  = _convert_gemini_to_openai rt cfg
      (JObj (dict_set "contents" (JArr (pre ++ post)%list) fields)).
Proof.
  intros Hentry Hcontents. rewrite !convert_request_eq.
  unfold translated_messages.
  rewrite dict_get_dict_set_same.
  rewrite !dict_get_dict_set_other by discriminate.
  unfold dict_get at 1. rewrite Hcontents. simpl.
  rewrite !for_each_app. simpl.
  destruct (for_each (add_content rt) pre []) as [e|before]; simpl;
    [reflexivity|].
  now rewrite Hentry.
Qed.

(** C1. An entry with a supported role whose only part is a function call
    named [lookup], with no text, is kept: it contributes one message
    [{role, content}] whose content is the marker with its leading line
    feed trimmed, ["[Function Call: lookup]"], and that message stands in
    the translated request between the messages of the entries before and
    after it. *)
Theorem function_call_only_entry_kept
    (fields entry part call : list (string * json)) (role : string)
    (pre post before after : list json) :
  role = "user" \/ role = "model" ->
  lookup "role" entry = Some (JStr role) ->
  lookup "parts" entry = Some (JArr [JObj part]) ->
  lookup "text" part = None ->
  lookup "functionCall" part = Some (JObj call) ->
  lookup "name" call = Some (JStr "lookup") ->
  lookup "contents" fields = Some (JArr (pre ++ JObj entry :: post)%list) ->
  for_each (add_content rt) pre [] = inr before ->
  for_each (add_content rt) post [] = inr after ->
  let kept :=
    chat_message (if String.eqb role "model" then "assistant" else role)
                 "[Function Call: lookup]" in
  strip (LF ++ "[Function Call: lookup]") = "[Function Call: lookup]"
  /\ add_content rt before (JObj entry) = inr (before ++ [kept])%list
  /\ _convert_gemini_to_openai rt cfg (JObj fields)
     = reraise rt request_error_prefix
         (build_request cfg (before ++ kept :: after)%list
            (dict_get fields "tools" (JArr []))
            (dict_get fields "generationConfig" (JObj [])))
  /\ (forall out,
        _convert_gemini_to_openai rt cfg (JObj fields) = inr out ->
        messages_of out = Some (JArr (before ++ kept :: after)%list)).
Proof.
  intros Hrole Hr Hparts Htext Hcall Hname Hcontents Hpre Hpost kept.
  assert (Hentry : forall acc,
             add_content rt acc (JObj entry) = inr (acc ++ [kept])%list).
  { intros acc. unfold add_content, message_content_of, py_get, dict_get.
    rewrite Hr, Hparts. simpl. unfold add_part, py_contains, py_getitem.
    rewrite Htext, Hcall. simpl. unfold dict_get. rewrite Hname.
    subst kept. destruct Hrole as [-> | ->]; reflexivity. }
  assert (Hconv : _convert_gemini_to_openai rt cfg (JObj fields)
                  = reraise rt request_error_prefix
                      (build_request cfg (before ++ kept :: after)%list
                         (dict_get fields "tools" (JArr []))
                         (dict_get fields "generationConfig" (JObj [])))).
  { rewrite convert_request_eq. unfold translated_messages, dict_get at 1.
    rewrite Hcontents. simpl.
    rewrite (for_each_add_content_split pre (JObj entry) post Hpre
               (Hentry []) Hpost). reflexivity. }
  repeat split.
  - apply Hentry.
  - exact Hconv.
  - intros out Hout. rewrite Hconv in Hout.
    apply reraise_inr in Hout. eapply build_request_messages, Hout.
Qed.

(** An entry whose role is outside the supported set leaves the running
    messages as they are; its parts are not read. *)
Lemma add_content_unsupported_role (entry : list (string * json)) acc :
  dict_get entry "role" JNull <> JStr "user" ->
  dict_get entry "role" JNull <> JStr "model" ->
  add_content rt acc (JObj entry) = inr acc.
Proof.
  intros Hu Hm. unfold add_content, py_get. simpl.
  apply is_str_false_iff in Hu, Hm. now rewrite Hu, Hm.
Qed.

(** An entry with a supported role contributes one message when its
    trimmed text is non-empty, and none otherwise. *)
Lemma add_content_supported_role (entry : list (string * json)) acc role text :
  role = "user" \/ role = "model" ->
  lookup "role" entry = Some (JStr role) ->
  message_content_of rt (JObj entry) = inr text ->
  add_content rt acc (JObj entry)
  = inr (acc ++ (if str_nonempty (strip text)
                 then [openai_message (openai_role (JStr role)) (strip text)]
                 else []))%list.
Proof.
  intros Hrole Hr Htext. unfold add_content, py_get, dict_get.
  rewrite Hr. simpl.
  replace (String.eqb role "user" || String.eqb role "model") with true
    by (destruct Hrole as [-> | ->]; reflexivity).
  rewrite Htext. simpl.
  destruct (str_nonempty (strip text)); unfold ret; now rewrite ?app_nil_r.
Qed.


(** An entry whose accumulated text is white space only (or empty) leaves
    the running messages as they are, whatever its role. *)
Lemma add_content_blank (entry : list (string * json)) acc text :
  message_content_of rt (JObj entry) = inr text ->
  all_space text = true ->
  add_content rt acc (JObj entry) = inr acc.
Proof.
  intros Htext Hblank. apply strip_empty_iff in Hblank.
  unfold add_content. simpl.
  destruct (is_str _ "user" || is_str _ "model"); [|reflexivity].
  rewrite Htext. simpl. now rewrite Hblank.
Qed.

(** C7. An entry whose concatenated part text is empty or white space
    only contributes no message, so that removing it from [contents] does
    not change the translation; the request
    [contents=[{role:"user",parts:[{text:"  "}]}]] translates to a request
    with an empty [messages] sequence. *)
Theorem blank_entry_omitted :
  (forall entry acc text,
     message_content_of rt (JObj entry) = inr text ->
     strip text = "" ->
     add_content rt acc (JObj entry) = inr acc)
  /\ (forall fields entry pre post text,
        message_content_of rt (JObj entry) = inr text ->
        strip text = "" ->
        lookup "contents" fields = Some (JArr (pre ++ JObj entry :: post)%list) ->
        _convert_gemini_to_openai rt cfg (JObj fields)
        = _convert_gemini_to_openai rt cfg
            (JObj (dict_set "contents" (JArr (pre ++ post)%list) fields)))
  /\ _convert_gemini_to_openai rt cfg
       (JObj [("contents",
               JArr [JObj [("role", JStr "user");
                           ("parts", JArr [JObj [("text", JStr "  ")]])]])])
     = inr (JObj [("model", JStr (OPENAI_MODEL cfg));
                  ("messages", JArr []);
                  ("stream", JBool false);
                  ("temperature", JFloat 1 (-1));
                  ("max_tokens", JInt 4000)]).
Proof.
  split; [|split].
  - intros entry acc text Htext Hblank.
    apply add_content_blank with text; [exact Htext | now apply strip_empty_iff].
  - intros fields entry pre post text Htext Hblank Hc.
    apply convert_request_drop_entry with (entry := JObj entry); [|exact Hc].
    intros acc.
    apply add_content_blank with text; [exact Htext | now apply strip_empty_iff].
  - reflexivity.
Qed.

(** The inner loop over the declarations of one tool. *)
Lemma for_each_add_func_decl (decls : list (list (string * json))) acc :
  for_each add_func_decl (map JObj decls) acc
  = inr (acc ++ map tool_entry decls)%list.
Proof.
  revert acc; induction decls as [|d decls IH]; intros acc; simpl.
  - unfold ret. now rewrite app_nil_r.
  - rewrite IH. now rewrite <- app_assoc.
Qed.

Lemma add_tool_declares tool decls acc :
  declares tool decls ->
  add_tool acc tool = inr (acc ++ map tool_entry decls)%list.
Proof.
  intros [fields [-> Hdecls]]. unfold add_tool, py_get. simpl.
  rewrite Hdecls. simpl. apply for_each_add_func_decl.
Qed.

(** The loop of lines 177-187 computes the flattened sequence. *)
Lemma for_each_add_tool tools declss acc :
  Forall2 declares tools declss ->
  for_each add_tool tools acc = inr (acc ++ flattened declss)%list.
Proof.
  intros H. revert acc. induction H as [|tool decls tools declss Hd _ IH];
    intros acc; simpl.
  - unfold ret, flattened. simpl. now rewrite app_nil_r.
  - rewrite (add_tool_declares acc Hd). simpl. rewrite IH.
    unfold flattened. simpl. now rewrite map_app, app_assoc.
Qed.

(** C8. When [tools] is a non-empty sequence, every declaration of every
    tool is flattened, in order, into one [tools] sequence of
    [{type:"function", function:{name, description, parameters}}] entries
    (two tools with one function each give exactly two entries) and
    [tool_choice] is ["auto"]; when the flattened sequence is empty,
    neither [tools] nor [tool_choice] is in the output. *)
Theorem tools_flattened
    (fields generation_config : list (string * json))
    (tools messages : list json)
    (declss : list (list (list (string * json)))) :
  lookup "tools" fields = Some (JArr tools) ->
  tools <> [] ->
  Forall2 declares tools declss ->
  translated_messages rt fields = inr messages ->
  dict_get fields "generationConfig" (JObj []) = JObj generation_config ->
  let base := base_request cfg messages generation_config in
  (flattened declss <> [] ->
   _convert_gemini_to_openai rt cfg (JObj fields)
   = inr (JObj (base ++ [("tools", JArr (flattened declss));
                         ("tool_choice", JStr "auto")])%list))
  /\ (flattened declss = [] ->
      _convert_gemini_to_openai rt cfg (JObj fields) = inr (JObj base)
      /\ lookup "tools" base = None
      /\ lookup "tool_choice" base = None)
  /\ (forall d1 d2,
        declss = [[d1]; [d2]] ->
        flattened declss = [tool_entry d1; tool_entry d2]
        /\ length (flattened declss) = 2).
Proof.
  intros Htools Hne Hdecl Hmsgs Hgc base.
  assert (Hconv : _convert_gemini_to_openai rt cfg (JObj fields)
                  = inr (if py_truthy (JArr (flattened declss))
                         then JObj (base ++ [("tools", JArr (flattened declss));
                                             ("tool_choice", JStr "auto")])%list
                         else JObj base)).
  { rewrite convert_request_eq, Hmsgs, Hgc. simpl.
    unfold dict_get at 1. rewrite Htools.
    unfold build_request. simpl.
    destruct tools as [|tool tools]; [congruence|].
    cbn [py_truthy py_iter ret bind].
    rewrite (for_each_add_tool [] Hdecl). simpl.
    destruct (flattened declss); reflexivity. }
  split; [|split].
  - intros Hflat. rewrite Hconv.
    destruct (flattened declss); [congruence | reflexivity].
  - intros Hflat. rewrite Hconv, Hflat. repeat split.
  - intros d1 d2 ->. split; reflexivity.
Qed.

End RequestTranslation.

(* ===================================================================== *)
(** ** Response translation *)
(* ===================================================================== *)

Section ResponseTranslation.

Variable rt : runtime.

(** The translation of a response whose [choices] is a non-empty list. *)
Lemma convert_response_eq (fields : list (string * json)) choice rest :
  lookup "choices" fields = Some (JArr (choice :: rest)) ->
  _convert_openai_to_gemini rt (JObj fields)
  = reraise rt response_error_prefix
      (parts <- response_parts rt choice ;;
       finish_reason <- py_get choice "finish_reason" (JStr "stop") ;;
       usage <- ret (dict_get fields "usage" (JObj [])) ;;
       prompt_tokens <- py_get usage "prompt_tokens" (JInt 0) ;;
       completion_tokens <- py_get usage "completion_tokens" (JInt 0) ;;
       total_tokens <- py_get usage "total_tokens" (JInt 0) ;;
       ret (gemini_response parts (gemini_finish_reason finish_reason)
              prompt_tokens completion_tokens total_tokens)).
Proof.
  intros Hc. unfold _convert_openai_to_gemini, py_get at 1, dict_get at 1.
  rewrite Hc. reflexivity.
Qed.

(** A well-formed first choice is translated, with the finish reason
    read from the choice or defaulted. *)
Lemma convert_response_ok (fields choice usage : list (string * json))
    rest parts :
  lookup "choices" fields = Some (JArr (JObj choice :: rest)) ->
  response_parts rt (JObj choice) = inr parts ->
  dict_get fields "usage" (JObj []) = JObj usage ->
  _convert_openai_to_gemini rt (JObj fields)
  = inr (gemini_response parts
           (gemini_finish_reason (dict_get choice "finish_reason" (JStr "stop")))
           (dict_get usage "prompt_tokens" (JInt 0))
           (dict_get usage "completion_tokens" (JInt 0))
           (dict_get usage "total_tokens" (JInt 0))).
Proof.
  intros Hc Hparts Husage.
  rewrite (convert_response_eq fields Hc), Hparts, Husage. reflexivity.
Qed.

(** Whatever the translation returns, its candidate carries the mapped
    finish reason of the first choice. *)
Lemma convert_response_finish_reason (fields choice : list (string * json))
    rest out :
  lookup "choices" fields = Some (JArr (JObj choice :: rest)) ->
  _convert_openai_to_gemini rt (JObj fields) = inr out ->
  finish_reason_of out
  = Some (JStr (gemini_finish_reason
                  (dict_get choice "finish_reason" (JStr "stop")))).
Proof.
  intros Hc. rewrite (convert_response_eq fields Hc).
  destruct (response_parts rt (JObj choice)) as [e|parts]; simpl;
    [discriminate|].
  destruct (py_get (dict_get fields "usage" (JObj [])) "prompt_tokens" _)
    as [e|p]; simpl; [discriminate|].
  destruct (py_get (dict_get fields "usage" (JObj [])) "completion_tokens" _)
    as [e|c]; simpl; [discriminate|].
  destruct (py_get (dict_get fields "usage" (JObj [])) "total_tokens" _)
    as [e|t]; simpl; [discriminate|].
  intros [= <-]. reflexivity.
Qed.

(** C6. When the first choice carries a [finish_reason], the candidate of
    the translated response has [finishReason] ["STOP"] if that value is
    the string ["stop"] and ["OTHER"] for every other value; the
    translation returns such a response whenever the parts of the choice
    translate and [usage] is a mapping or absent. *)
Theorem finish_reason_mapped (fields choice : list (string * json))
    (rest : list json) (finish_reason : json) :
  lookup "choices" fields = Some (JArr (JObj choice :: rest)) ->
  lookup "finish_reason" choice = Some finish_reason ->
  (finish_reason = JStr "stop" ->
   forall out, _convert_openai_to_gemini rt (JObj fields) = inr out ->
               finish_reason_of out = Some (JStr "STOP"))
  /\ (finish_reason <> JStr "stop" ->
      forall out, _convert_openai_to_gemini rt (JObj fields) = inr out ->
                  finish_reason_of out = Some (JStr "OTHER"))
  /\ (forall parts usage,
        response_parts rt (JObj choice) = inr parts ->
        dict_get fields "usage" (JObj []) = JObj usage ->
        _convert_openai_to_gemini rt (JObj fields)
        = inr (gemini_response parts
                 (if is_str finish_reason "stop" then "STOP" else "OTHER")
                 (dict_get usage "prompt_tokens" (JInt 0))
                 (dict_get usage "completion_tokens" (JInt 0))
                 (dict_get usage "total_tokens" (JInt 0)))).
Proof.
  intros Hc Hfr.
  assert (Hget : dict_get choice "finish_reason" (JStr "stop") = finish_reason)
    by (unfold dict_get; now rewrite Hfr).
  split; [|split].
  - intros -> out Hout.
    rewrite (convert_response_finish_reason fields Hc Hout), Hget. reflexivity.
  - intros Hne out Hout.
    rewrite (convert_response_finish_reason fields Hc Hout), Hget.
    unfold gemini_finish_reason.
    apply is_str_false_iff in Hne. now rewrite Hne.
  - intros parts usage Hparts Husage.
    rewrite (convert_response_ok fields Hc Hparts Husage), Hget. reflexivity.
Qed.

(** C10. When the first choice has no [finish_reason] field, the value
    defaults to ["stop"] and the candidate has [finishReason] ["STOP"]. *)
Theorem finish_reason_absent_is_stop (fields choice : list (string * json))
    (rest : list json) :
  lookup "choices" fields = Some (JArr (JObj choice :: rest)) ->
  lookup "finish_reason" choice = None ->
  (forall out, _convert_openai_to_gemini rt (JObj fields) = inr out ->
               finish_reason_of out = Some (JStr "STOP"))
  /\ (forall parts usage,
        response_parts rt (JObj choice) = inr parts ->
        dict_get fields "usage" (JObj []) = JObj usage ->
        _convert_openai_to_gemini rt (JObj fields)
        = inr (gemini_response parts "STOP"
                 (dict_get usage "prompt_tokens" (JInt 0))
                 (dict_get usage "completion_tokens" (JInt 0))
                 (dict_get usage "total_tokens" (JInt 0)))).
Proof.
  intros Hc Hfr.
  assert (Hget : dict_get choice "finish_reason" (JStr "stop") = JStr "stop")
    by (unfold dict_get; now rewrite Hfr).
  split.
  - intros out Hout.
    rewrite (convert_response_finish_reason fields Hc Hout), Hget. reflexivity.
  - intros parts usage Hparts Husage.
    rewrite (convert_response_ok fields Hc Hparts Husage), Hget. reflexivity.
Qed.

Lemma add_tool_call_appends (acc : list json) (tool_call : json) :
  add_tool_call rt acc tool_call
  = (ys <- add_tool_call rt [] tool_call ;; ret (acc ++ ys)%list).
Proof.
  unfold add_tool_call.
  destruct (py_get tool_call "function" (JObj [])) as [e|function]; simpl;
    [reflexivity|].
  destruct (py_get function "name" (JStr "unknown")); reflexivity.
Qed.


(** A missing or empty [choices] makes the translation raise. *)
Lemma convert_response_no_choices (fields : list (string * json)) :
  lookup "choices" fields = None \/ lookup "choices" fields = Some (JArr []) ->
  _convert_openai_to_gemini rt (JObj fields)
  = inl (Exception_ (response_error_prefix ++ "No choices in OpenAI response")).
Proof.
  intros [H | H]; unfold _convert_openai_to_gemini, py_get, dict_get;
    rewrite H; reflexivity.
Qed.

End ResponseTranslation.

(* ===================================================================== *)
(** ** The handler *)
(* ===================================================================== *)

Section Handler.

Variable rt : runtime.
Variable cfg : config.
Variable requests_post :
  string -> list (string * string) -> json -> Z -> result response.
Variable py_print : log_line -> result unit.

Local Abbreviation POST := (do_POST rt cfg requests_post py_print).
Local Abbreviation outbound := (_make_openai_request rt cfg requests_post).
Local Abbreviation raised :=
  (raised_in_pipeline rt cfg requests_post py_print).

(** The [try] block of a matching path raises exactly the exceptions of
    the pipeline. *)
Lemma do_POST_try_raises (req : http_request) (e : pyexc) :
  _is_gemini_api_request (path req) = true ->
  do_POST_try rt cfg requests_post py_print req = inl e <-> raised req e.
Proof.
  intros Hpath. unfold do_POST_try. rewrite Hpath. cbn [negb]. split.
  - destruct (read_body req) as [e0|b] eqn:Hb; cbn [bind].
    { intros [= <-]. now apply raised_reading. }
    destruct (py_print (LogIntercepting (path req))) as [e0|[]] eqn:Hp1;
      cbn [bind].
    { intros [= <-]. now apply raised_announcing with b. }
    cbn [py_json_loads].
    destruct (json_loads rt b) as [g|] eqn:Hl; cbn [bind ret raise].
    2: { intros [= <-]. now apply raised_decoding. }
    assert (Hg : decoded rt py_print req g) by (exists b; auto).
    destruct (_convert_gemini_to_openai rt cfg g) as [e0|o] eqn:Ho; cbn [bind].
    { intros [= <-]. now apply raised_translating_request with g. }
    assert (Hto : translated rt cfg py_print req o) by (exists g; auto).
    destruct (py_print (LogForwarding (OPENAI_MODEL cfg))) as [e0|[]] eqn:Hp2;
      cbn [bind].
    { intros [= <-]. now apply raised_announcing_call with o. }
    destruct (_make_openai_request rt cfg requests_post o) as [e0|r] eqn:Hr;
      cbn [bind].
    { intros [= <-]. now apply raised_calling with o. }
    assert (Hc : called rt cfg requests_post py_print req r)
      by (exists o; auto).
    destruct (_convert_openai_to_gemini rt r) as [e0|g'] eqn:Hg'; cbn [bind].
    { intros [= <-]. now apply raised_translating_response with r. }
    assert (Ha : answered rt cfg requests_post py_print req g')
      by (exists r; auto).
    destruct (py_print LogCompleted) as [e0|[]] eqn:Hp3; cbn [bind].
    { intros [= <-]. now apply raised_announcing_success with g'. }
    discriminate.
  - intros H.
    destruct H as [e Hb | b e Hb Hp1 | b Hb Hp1 Hl
                  | g e (b & Hb & Hp1 & Hl) Ho
                  | o e (g & (b & Hb & Hp1 & Hl) & Ho) Hp2
                  | o e (g & (b & Hb & Hp1 & Hl) & Ho) Hp2 Hr
                  | r e (o & (g & (b & Hb & Hp1 & Hl) & Ho) & Hp2 & Hr) Hg
                  | g' e (r & (o & (g & (b & Hb & Hp1 & Hl) & Ho) & Hp2 & Hr)
                          & Hg) Hp3];
      rewrite Hb; cbn [bind]; try reflexivity;
      rewrite Hp1; cbn [bind py_json_loads]; try reflexivity;
      rewrite Hl; cbn [bind ret raise]; try reflexivity;
      rewrite Ho; cbn [bind]; try reflexivity;
      rewrite Hp2; cbn [bind]; try reflexivity;
      rewrite Hr; cbn [bind]; try reflexivity;
      rewrite Hg; cbn [bind]; try reflexivity;
      rewrite Hp3; reflexivity.
Qed.



(** C4. A POST is handled as a source-API request exactly when its path
    contains ["generateContent"], ["/v1/models/"] or ["/v1beta/"]; any
    other path is answered 404 with [{error:"Not a Gemini API endpoint"}],
    a matching one with 200 or 500.  ["/v1/chat/completions"] does not
    match; ["/v1beta/models/foo:generateContent"] does. *)
Theorem endpoint_recognition :
  (forall p,
     _is_gemini_api_request p = true
     <-> occurs_in "generateContent" p
         \/ occurs_in "/v1/models/" p
         \/ occurs_in "/v1beta/" p)
  /\ (forall req,
        _is_gemini_api_request (path req) = false ->
        POST req
        = inr {| status := 404;
                 headers := json_headers;
                 body := JObj [("error", JStr "Not a Gemini API endpoint")] |})
  /\ (forall req sent,
        _is_gemini_api_request (path req) = true ->
        POST req = inr sent ->
        status sent = 200%Z \/ status sent = 500%Z)
  /\ _is_gemini_api_request "/v1/chat/completions" = false
  /\ POST {| path := "/v1/chat/completions"; read_body := inr "{}" |}
     = inr {| status := 404;
              headers := json_headers;
              body := JObj [("error", JStr "Not a Gemini API endpoint")] |}
  /\ _is_gemini_api_request "/v1beta/models/foo:generateContent" = true.
Proof.
  split; [|split; [|split; [|split; [|split]]]].
  - intros p. unfold _is_gemini_api_request.
    rewrite !orb_true_iff, !str_contains_iff. tauto.
  - intros req Hpath. unfold do_POST, do_POST_try.
    now rewrite Hpath.
  - intros req sent Hpath. unfold do_POST, do_POST_try.
    rewrite Hpath. cbn [negb].
    destruct (_ <- read_body req ;; _) as [e|ok] eqn:Hrun.
    + destruct (py_print (LogProxyError (exc_str rt e))) as [e0|[]];
        cbn [bind ret]; [discriminate|].
      intros [= <-]. right. reflexivity.
    + intros [= <-]. left.
      destruct (read_body req) as [e|b]; cbn [bind] in Hrun; [discriminate|].
      destruct (py_print (LogIntercepting (path req))) as [e|[]];
        cbn [bind] in Hrun; [discriminate|].
      destruct (py_json_loads rt (JStr b)) as [e|g]; cbn [bind] in Hrun;
        [discriminate|].
      destruct (_convert_gemini_to_openai rt cfg g) as [e|o]; cbn [bind] in Hrun;
        [discriminate|].
      destruct (py_print (LogForwarding (OPENAI_MODEL cfg))) as [e|[]];
        cbn [bind] in Hrun; [discriminate|].
      destruct (_make_openai_request rt cfg requests_post o) as [e|r];
        cbn [bind] in Hrun; [discriminate|].
      destruct (_convert_openai_to_gemini rt r) as [e|g']; cbn [bind] in Hrun;
        [discriminate|].
      destruct (py_print LogCompleted) as [e|[]]; cbn [bind] in Hrun;
        [discriminate|].
      injection Hrun as <-. reflexivity.
  - reflexivity.
  - reflexivity.
  - reflexivity.
Qed.

End Handler.

(* ===================================================================== *)
(** ** Runs on concrete inputs *)
(* ===================================================================== *)

(** A function-call-only entry between a text entry and an entry with an
    unsupported role. *)
Lemma function_call_only_entry_kept_witness :
  strip (LF ++ "[Function Call: lookup]") = "[Function Call: lookup]"
  /\ _convert_gemini_to_openai Sample.rt Sample.cfg
       (JObj [("contents", JArr [JObj Sample.hello_entry;
                                 JObj Sample.call_entry;
                                 JObj Sample.system_entry])])
     = inr (JObj [("model", JStr "gpt-4o");
                  ("messages",
                   JArr [JObj [("role", JStr "user");
                               ("content", JStr "hello")];
                         JObj [("role", JStr "assistant");
                               ("content", JStr "[Function Call: lookup]")]]);
                  ("stream", JBool false);
                  ("temperature", JFloat 1 (-1));
                  ("max_tokens", JInt 4000)]).
Proof.
  destruct (@function_call_only_entry_kept Sample.rt Sample.cfg
              [("contents", JArr [JObj Sample.hello_entry;
                                  JObj Sample.call_entry;
                                  JObj Sample.system_entry])]
              Sample.call_entry Sample.call_part
              [("name", JStr "lookup"); ("args", JObj [("q", JStr "rocq")])]
              "model" [JObj Sample.hello_entry] [JObj Sample.system_entry]
              [chat_message "user" "hello"] []
              (or_intror eq_refl) eq_refl eq_refl eq_refl eq_refl eq_refl
              eq_refl eq_refl eq_refl)
    as (Hstrip & _ & Hconv & _).
  split; [exact Hstrip | rewrite Hconv; reflexivity].
Defined.


Lemma blank_entry_omitted_witness :
  add_content Sample.rt [openai_message (JStr "user") "hello"]
    (JObj Sample.blank_entry)
  = inr [openai_message (JStr "user") "hello"]
  /\ _convert_gemini_to_openai Sample.rt Sample.cfg
       (JObj [("contents", JArr [JObj Sample.blank_entry])])
     = inr (JObj [("model", JStr "gpt-4o");
                  ("messages", JArr []);
                  ("stream", JBool false);
                  ("temperature", JFloat 1 (-1));
                  ("max_tokens", JInt 4000)]).
Proof.
  destruct (blank_entry_omitted Sample.rt Sample.cfg) as (Hentry & _ & Hrun).
  split.
  - apply (Hentry Sample.blank_entry _ "  "); reflexivity.
  - exact Hrun.
Defined.

(** Two tools with one declaration each, then a tool without
    declarations. *)
Lemma tools_flattened_witness :
  _convert_gemini_to_openai Sample.rt Sample.cfg
    (JObj [("contents", JArr [JObj Sample.hello_entry]);
           ("tools", JArr [Sample.tool_of [Sample.search_decl];
                           Sample.tool_of [Sample.bare_decl]])])
  = inr (JObj [("model", JStr "gpt-4o");
               ("messages", JArr [openai_message (JStr "user") "hello"]);
               ("stream", JBool false);
               ("temperature", JFloat 1 (-1));
               ("max_tokens", JInt 4000);
               ("tools",
                JArr [openai_tool (JStr "search") (JStr "Search the web")
                                  (JObj [("type", JStr "object")]);
                      openai_tool (JStr "unknown") (JStr "no name") (JObj [])]);
               ("tool_choice", JStr "auto")])
  /\ _convert_gemini_to_openai Sample.rt Sample.cfg
       (JObj [("contents", JArr [JObj Sample.hello_entry]);
              ("tools", JArr [Sample.tool_of []; JObj []])])
     = inr (JObj [("model", JStr "gpt-4o");
                  ("messages", JArr [openai_message (JStr "user") "hello"]);
                  ("stream", JBool false);
                  ("temperature", JFloat 1 (-1));
                  ("max_tokens", JInt 4000)]).
Proof.
  split.
  - refine (proj1 (@tools_flattened Sample.rt Sample.cfg
              [("contents", JArr [JObj Sample.hello_entry]);
               ("tools", JArr [Sample.tool_of [Sample.search_decl];
                               Sample.tool_of [Sample.bare_decl]])]
              []
              [Sample.tool_of [Sample.search_decl];
               Sample.tool_of [Sample.bare_decl]]
              [openai_message (JStr "user") "hello"]
              [[Sample.search_decl]; [Sample.bare_decl]]
              eq_refl _ _ eq_refl eq_refl) _).
    + discriminate.
    + repeat constructor; eexists; split; reflexivity.
    + discriminate.
  - refine (proj1 (proj1 (proj2 (@tools_flattened Sample.rt Sample.cfg
              [("contents", JArr [JObj Sample.hello_entry]);
               ("tools", JArr [Sample.tool_of []; JObj []])]
              []
              [Sample.tool_of []; JObj []]
              [openai_message (JStr "user") "hello"]
              [[]; []]
              eq_refl _ _ eq_refl eq_refl)) eq_refl)).
    + discriminate.
    + repeat constructor; eexists; split; reflexivity.
Defined.

(** A choice that stopped for length, then one that stopped normally. *)
Lemma finish_reason_mapped_witness :
  _convert_openai_to_gemini Sample.rt
    (JObj [("choices",
            JArr [JObj [("message", JObj [("content", JStr "hi")]);
                        ("finish_reason", JStr "length")]]);
           ("usage", JObj Sample.usage)])
  = inr (gemini_response [JObj [("text", JStr "hi")]] "OTHER"
           (JInt 7) (JInt 5) (JInt 12))
  /\ _convert_openai_to_gemini Sample.rt
       (JObj [("choices",
               JArr [JObj [("message", JObj [("content", JStr "hi")]);
                           ("finish_reason", JStr "stop")]])])
     = inr (gemini_response [JObj [("text", JStr "hi")]] "STOP"
              (JInt 0) (JInt 0) (JInt 0)).
Proof.
  split.
  - refine (proj2 (proj2 (@finish_reason_mapped Sample.rt
              [("choices",
                JArr [JObj [("message", JObj [("content", JStr "hi")]);
                            ("finish_reason", JStr "length")]]);
               ("usage", JObj Sample.usage)]
              [("message", JObj [("content", JStr "hi")]);
               ("finish_reason", JStr "length")]
              [] (JStr "length") eq_refl eq_refl))
              [JObj [("text", JStr "hi")]] Sample.usage eq_refl eq_refl).
  - refine (proj2 (proj2 (@finish_reason_mapped Sample.rt
              [("choices",
                JArr [JObj [("message", JObj [("content", JStr "hi")]);
                            ("finish_reason", JStr "stop")]])]
              [("message", JObj [("content", JStr "hi")]);
               ("finish_reason", JStr "stop")]
              [] (JStr "stop") eq_refl eq_refl))
              [JObj [("text", JStr "hi")]] [] eq_refl eq_refl).
Defined.

(** A choice without [finish_reason]. *)
Lemma finish_reason_absent_is_stop_witness :
  _convert_openai_to_gemini Sample.rt
    (JObj [("choices", JArr [JObj [("message", JObj [("content", JStr "hi")])]]);
           ("usage", JObj Sample.usage)])
  = inr (gemini_response [JObj [("text", JStr "hi")]] "STOP"
           (JInt 7) (JInt 5) (JInt 12))
  /\ finish_reason_of
       (gemini_response [JObj [("text", JStr "hi")]] "STOP"
          (JInt 7) (JInt 5) (JInt 12))
     = Some (JStr "STOP").
Proof.
  pose proof (@finish_reason_absent_is_stop Sample.rt
                [("choices",
                  JArr [JObj [("message", JObj [("content", JStr "hi")])]]);
                 ("usage", JObj Sample.usage)]
                [("message", JObj [("content", JStr "hi")])]
                [] eq_refl eq_refl) as [Hreason Hrun].
  pose proof (Hrun [JObj [("text", JStr "hi")]] Sample.usage eq_refl eq_refl)
    as Hout.
  split; [exact Hout | exact (Hreason _ Hout)].
Defined.





(** The loose match of a path that only contains ["/v1beta/"], and a
    path that contains none of the three texts. *)
Lemma endpoint_recognition_witness :
  _is_gemini_api_request "/v1beta/unrelated" = true
  /\ do_POST Sample.rt Sample.cfg (Sample.post_failing "connection refused")
       Sample.stdout_open
       {| path := "/health"; read_body := inr "" |}
     = inr {| status := 404;
              headers := json_headers;
              body := JObj [("error", JStr "Not a Gemini API endpoint")] |}.
Proof.
  destruct (endpoint_recognition Sample.rt Sample.cfg
              (Sample.post_failing "connection refused") Sample.stdout_open)
    as (Hiff & Hother & _).
  split.
  - apply Hiff. right; right. exists "", "unrelated". reflexivity.
  - apply Hother. reflexivity.
Defined.

(** A complete exchange: the request is decoded and translated, the
    target answers with text and a tool call, and the answer is translated
    back. *)
Example post_end_to_end :
  do_POST Sample.rt Sample.cfg
    (Sample.post_replying
       (Sample.reply 200
          (JObj [("choices",
                  JArr [JObj [("message",
                               JObj [("content", JStr "Looking it up.");
                                     ("tool_calls", JArr [JObj Sample.good_call])]);
                              ("finish_reason", JStr "tool_calls")]]);
                 ("usage", JObj Sample.usage)])))
    Sample.stdout_open
    {| path := Sample.gemini_path;
       read_body :=
         inr (Sample.dq "{'contents': [{'role': 'user', 'parts': [{'text': 'find rocq'}]}]}") |}
  = inr {| status := 200;
           headers := json_headers;
           body := gemini_response
                     [JObj [("text", JStr "Looking it up.")];
                      function_call_part (JStr "search") (JArr [JInt 1; JInt 2])]
                     "OTHER" (JInt 7) (JInt 5) (JInt 12) |}.
Proof. vm_compute. reflexivity. Qed.

(** The target refuses the call: its status and body are reported. *)
Example post_upstream_refusal :
  do_POST Sample.rt Sample.cfg
    (Sample.post_replying
       (Sample.reply 429 (JObj [("error", JStr "rate limited")])))
    Sample.stdout_open
    {| path := Sample.gemini_path;
       read_body := inr (Sample.dq "{'contents': []}") |}
  = inr {| status := 500;
           headers := json_headers;
           body := error_envelope
             "Proxy error: OpenAI API error: 429 - {'error': 'rate limited'}" |}.
Proof. vm_compute. reflexivity. Qed.

(** A request that is a JSON list, not a mapping, has no [get]. *)
Example post_request_not_a_mapping :
  do_POST Sample.rt Sample.cfg (Sample.post_failing "connection refused")
    Sample.stdout_open
    {| path := Sample.gemini_path; read_body := inr "[1, 2]" |}
  = inr {| status := 500;
           headers := json_headers;
           body := error_envelope
             "Proxy error: Error converting Gemini to OpenAI format: 'list' object has no attribute 'get'" |}.
Proof. vm_compute. reflexivity. Qed.

(** Standard output closes while the proxy serves: the first print of a
    request raises, the handler's print raises too, and [do_POST] ends on
    that exception with nothing sent. *)
Example post_with_closed_stdout :
  do_POST Sample.rt Sample.cfg
    (Sample.post_replying (Sample.reply 200 (JObj Sample.chat_response)))
    Sample.stdout_closed Sample.gemini_post
  = inl (IOException "[Errno 32] Broken pipe").
Proof. reflexivity. Qed.

(* ===================================================================== *)
(** ** Further facts about strings and loops *)
(* ===================================================================== *)

Lemma append_empty_r (s : string) : s ++ "" = s.
Proof. induction s as [|c s IH]; simpl; [reflexivity | now rewrite IH]. Qed.

Lemma append_assoc (s t u : string) : (s ++ t) ++ u = s ++ (t ++ u).
Proof. induction s as [|c s IH]; simpl; [reflexivity | now rewrite IH]. Qed.

Lemma lstrip_head (s : string) :
  lstrip s = "" \/ exists c t, lstrip s = String c t /\ is_space c = false.
Proof.
  induction s as [|c s IH]; simpl; [now left|].
  destruct (is_space c) eqn:Hc; [exact IH | right; eauto].
Qed.

Lemma rstrip_idempotent (s : string) : rstrip (rstrip s) = rstrip s.
Proof.
  induction s as [|c s IH]; simpl; [reflexivity|].
  destruct (is_space c && negb (str_nonempty (rstrip s))) eqn:E;
    [reflexivity|].
  simpl. now rewrite IH, E.
Qed.

(** Stripping twice is stripping once: a stripped text has no white space
    left at either end. *)
Lemma strip_idempotent (s : string) : strip (strip s) = strip s.
Proof.
  unfold strip.
  destruct (lstrip_head s) as [-> | (c & t & -> & Hc)]; [reflexivity|].
  simpl. rewrite Hc. simpl. rewrite Hc. simpl. rewrite Hc. simpl.
  now rewrite rstrip_idempotent.
Qed.

(** A property of the accumulator kept by every successful step is kept
    by the loop. *)
Lemma for_each_invariant {A S} (body : S -> A -> result S) (P : S -> Prop) :
  (forall s x s', P s -> body s x = inr s' -> P s') ->
  forall xs s s', P s -> for_each body xs s = inr s' -> P s'.
Proof.
  intros Hstep xs. induction xs as [|x xs IH]; intros s s' Hs; simpl.
  - intros [= <-]. exact Hs.
  - destruct (body s x) as [e|s1] eqn:Hb; simpl; [discriminate|].
    apply IH. eapply Hstep; eauto.
Qed.

(** A loop fails at the first element on which its body fails. *)
Lemma for_each_fails_at {A S} (body : S -> A -> result S) pre x post s s1 e :
  for_each body pre s = inr s1 ->
  body s1 x = inl e ->
  for_each body (pre ++ x :: post)%list s = inl e.
Proof.
  intros Hpre Hx. rewrite for_each_app, Hpre. simpl. now rewrite Hx.
Qed.

(* ===================================================================== *)
(** ** More on the request translation *)
(* ===================================================================== *)

Section RequestTranslationMore.

Variable rt : runtime.
Variable cfg : config.

(** A request that is translated is a mapping whose contents translate
    and around whose messages the request is built. *)
Lemma convert_request_inv (v out : json) :
  _convert_gemini_to_openai rt cfg v = inr out ->
  exists fields messages,
    v = JObj fields
    /\ translated_messages rt fields = inr messages
    /\ build_request cfg messages
         (dict_get fields "tools" (JArr []))
         (dict_get fields "generationConfig" (JObj [])) = inr out.
Proof.
  destruct v as [ | b | z | m e | s | items | fields]; try discriminate.
  rewrite convert_request_eq. intros H. apply reraise_inr in H.
  destruct (translated_messages rt fields) as [e|messages] eqn:Hm;
    [discriminate|].
  exists fields, messages. auto.
Qed.

(** What [build_request] returns: the five base fields, followed by
    [tools] and [tool_choice] when the tools flatten to something. *)
Lemma build_request_inv messages tools generation_config out :
  build_request cfg messages tools generation_config = inr out ->
  exists gc,
    generation_config = JObj gc
    /\ (out = JObj (base_request cfg messages gc)
        \/ exists entries,
             entries <> []
             /\ py_truthy tools = true
             /\ out = JObj (base_request cfg messages gc
                            ++ [("tools", JArr entries);
                                ("tool_choice", JStr "auto")])%list).
Proof.
  unfold build_request.
  destruct generation_config as [ | b | z | m e | s | items | gc];
    try discriminate.
  simpl. intros H. exists gc. split; [reflexivity|].
  destruct (py_truthy tools) eqn:Ht.
  - destruct (py_iter tools) as [e|ts]; simpl in H; [discriminate|].
    destruct (for_each add_tool ts []) as [e|[|entry entries]];
      simpl in H; [discriminate | |]; injection H as <-.
    + now left.
    + right. exists (entry :: entries). repeat split. discriminate.
  - injection H as <-. now left.
Qed.

Lemma add_content_not_a_mapping (v : json) acc :
  (forall fields, v <> JObj fields) ->
  add_content rt acc v = inl (Builtin (AttributeError v "get")).
Proof.
  intros Hv. destruct v; try reflexivity. now elim (Hv fields).
Qed.

(** X1. Whatever goes wrong in the request translation is reported as
    one exception whose message starts with the fixed prefix; a request
    that is not a mapping (a list, a string, a number, [null]) is such a
    failure, with the interpreter's message for the missing [get]. *)
Theorem request_failures_are_wrapped :
  (forall v e,
     _convert_gemini_to_openai rt cfg v = inl e ->
     exists detail,
       e = Exception_ ("Error converting Gemini to OpenAI format: " ++ detail))
  /\ (forall v,
        (forall fields, v <> JObj fields) ->
        _convert_gemini_to_openai rt cfg v
        = inl (Exception_ ("Error converting Gemini to OpenAI format: "
                           ++ builtin_msg rt (AttributeError v "get")))).
Proof.
  split.
  - intros v e. unfold _convert_gemini_to_openai, reraise.
    destruct (_ <- py_get v "contents" (JArr []) ;; _) as [e'|out];
      [|discriminate].
    intros [= <-]. exists (exc_str rt e'). reflexivity.
  - intros v Hv. destruct v; try reflexivity. now elim (Hv fields).
Qed.

Lemma supported_role_maps (role : json) :
  is_str role "user" || is_str role "model" = true ->
  exists r, openai_role role = JStr r /\ (r = "user" \/ r = "assistant").
Proof.
  intros H. apply orb_true_iff in H.
  destruct H as [H | H]; apply is_str_true_iff in H; subst role.
  - exists "user". split; [reflexivity | now left].
  - exists "assistant". split; [reflexivity | now right].
Qed.

Lemma add_content_keeps_target acc content acc' :
  Forall target_message acc ->
  add_content rt acc content = inr acc' ->
  Forall target_message acc'.
Proof.
  intros Hacc. unfold add_content.
  destruct (py_get content "role" JNull) as [e|role]; simpl; [discriminate|].
  destruct (is_str role "user" || is_str role "model") eqn:Hrole.
  - destruct (message_content_of rt content) as [e|text]; simpl;
      [discriminate|].
    destruct (str_nonempty (strip text)) eqn:Hne; intros [= <-]; [|exact Hacc].
    apply Forall_app. split; [exact Hacc|]. constructor; [|constructor].
    destruct (supported_role_maps role Hrole) as (r & -> & Hr).
    exists r, (strip text). repeat split; auto.
    + intros E. rewrite E in Hne. discriminate.
    + apply strip_idempotent.
  - intros [= <-]. exact Hacc.
Qed.

(** X2. Every message of a translated request has role ["user"] or
    ["assistant"] and a content that is neither empty nor padded with
    white space, whatever the request was. *)
Theorem translated_messages_are_well_formed (v out : json) :
  _convert_gemini_to_openai rt cfg v = inr out ->
  exists messages,
    messages_of out = Some (JArr messages)
    /\ Forall target_message messages.
Proof.
  intros H. destruct (convert_request_inv v H) as (fields & ms & -> & Hm & Hb).
  exists ms. split; [eapply build_request_messages; exact Hb|].
  unfold translated_messages in Hm.
  destruct (py_iter (dict_get fields "contents" (JArr []))) as [e|cs];
    simpl in Hm; [discriminate|].
  eapply (@for_each_invariant _ _ (add_content rt) (Forall target_message));
    [intros s x s'; apply add_content_keeps_target | | exact Hm].
  constructor.
Qed.

Lemma add_content_grows_by_one acc content acc' :
  add_content rt acc content = inr acc' -> length acc' <= S (length acc).
Proof.
  unfold add_content.
  destruct (py_get content "role" JNull) as [e|role]; simpl; [discriminate|].
  destruct (is_str role "user" || is_str role "model").
  - destruct (message_content_of rt content) as [e|text]; simpl;
      [discriminate|].
    destruct (str_nonempty (strip text)); intros [= <-];
      rewrite ?length_app; simpl; lia.
  - intros [= <-]. lia.
Qed.

Lemma for_each_add_content_length contents acc acc' :
  for_each (add_content rt) contents acc = inr acc' ->
  length acc' <= length acc + length contents.
Proof.
  revert acc acc'. induction contents as [|c cs IH]; intros acc acc'; simpl.
  - intros [= <-]. lia.
  - destruct (add_content rt acc c) as [e|acc1] eqn:Hc; simpl; [discriminate|].
    intros H. apply IH in H. apply add_content_grows_by_one in Hc. lia.
Qed.

(** X3. The entries are translated one by one and in order: the messages
    of two sequences put end to end are the messages of the first followed
    by those of the second, and there are never more messages than
    entries. *)
Theorem messages_follow_the_entries :
  (forall xs ys messages,
     for_each (add_content rt) (xs ++ ys)%list [] = inr messages
     <-> exists m1 m2,
           for_each (add_content rt) xs [] = inr m1
           /\ for_each (add_content rt) ys [] = inr m2
           /\ messages = (m1 ++ m2)%list)
  /\ (forall fields contents out,
        lookup "contents" fields = Some (JArr contents) ->
        _convert_gemini_to_openai rt cfg (JObj fields) = inr out ->
        exists messages,
          messages_of out = Some (JArr messages)
          /\ for_each (add_content rt) contents [] = inr messages
          /\ length messages <= length contents).
Proof.
  split.
  - intros xs ys messages. rewrite for_each_app. split.
    + destruct (for_each (add_content rt) xs []) as [e|m1]; simpl;
        [discriminate|].
      rewrite for_each_add_content_appends.
      destruct (for_each (add_content rt) ys []) as [e|m2]; simpl;
        [discriminate|].
      intros [= <-]. eauto.
    + intros (m1 & m2 & -> & H2 & ->). simpl.
      rewrite for_each_add_content_appends, H2. reflexivity.
  - intros fields contents out Hc H.
    destruct (convert_request_inv _ H) as (fields' & ms & [= <-] & Hm & Hb).
    unfold translated_messages, dict_get in Hm. rewrite Hc in Hm. simpl in Hm.
    exists ms. split; [eapply build_request_messages; exact Hb|].
    split; [exact Hm|].
    apply for_each_add_content_length in Hm. simpl in Hm. exact Hm.
Qed.

End RequestTranslationMore.

Section RequestParts.

Variable rt : runtime.
Variable cfg : config.

Lemma add_part_plain (s : string) (part : list (string * json)) :
  plain_part part = true ->
  add_part rt s (JObj part) = inr (s ++ part_text rt part).
Proof.
  unfold plain_part, add_part, part_text, py_contains, py_getitem.
  destruct (lookup "text" part) as [[ | | | | t | | ]|];
    destruct (lookup "functionCall" part) as [[ | | | | | | call]|];
    simpl; try discriminate; intros _; unfold ret;
    now rewrite ?append_assoc, ?append_empty_r.
Qed.

Lemma for_each_add_part_plain (parts : list (list (string * json))) s :
  forallb plain_part parts = true ->
  for_each (add_part rt) (map JObj parts) s
  = inr (s ++ join_all (map (part_text rt) parts)).
Proof.
  revert s. induction parts as [|p parts IH]; intros s; simpl.
  - intros _. unfold ret. now rewrite append_empty_r.
  - intros H. apply andb_true_iff in H. destruct H as [Hp Hps].
    rewrite (add_part_plain s p Hp). simpl.
    rewrite (IH _ Hps). now rewrite append_assoc.
Qed.

(** X4. The content of an entry is the text of its parts put end to end
    with nothing in between: each part gives its [text] and then the
    marker of its [functionCall]; a part with neither (an image, a
    function response) gives nothing.  The message of the entry is that
    text trimmed, when something is left. *)
Theorem entry_text_is_concatenated
    (entry : list (string * json)) (parts : list (list (string * json)))
    (role : string) (acc : list json) :
  role = "user" \/ role = "model" ->
  lookup "role" entry = Some (JStr role) ->
  lookup "parts" entry = Some (JArr (map JObj parts)) ->
  forallb plain_part parts = true ->
  let text := join_all (map (part_text rt) parts) in
  message_content_of rt (JObj entry) = inr text
  /\ add_content rt acc (JObj entry)
     = inr (acc ++ (if str_nonempty (strip text)
                    then [openai_message (openai_role (JStr role)) (strip text)]
                    else []))%list.
Proof.
  intros Hrole Hr Hparts Hplain text.
  assert (Htext : message_content_of rt (JObj entry) = inr text).
  { unfold message_content_of, py_get, dict_get. rewrite Hparts. simpl.
    now rewrite (for_each_add_part_plain parts "" Hplain). }
  split; [exact Htext|].
  now apply add_content_supported_role.
Qed.

(** X5. One entry that cannot be translated fails the whole request: the
    translation raises the wrapped message of the first such entry and
    returns no partial list of messages. *)
Theorem first_bad_entry_fails_the_request
    (fields : list (string * json)) (pre post before : list json)
    (bad : json) (e : pyexc) :
  lookup "contents" fields = Some (JArr (pre ++ bad :: post)%list) ->
  for_each (add_content rt) pre [] = inr before ->
  add_content rt [] bad = inl e ->
  _convert_gemini_to_openai rt cfg (JObj fields)
  = inl (Exception_ ("Error converting Gemini to OpenAI format: "
                     ++ exc_str rt e)).
Proof.
  intros Hc Hpre Hbad.
  rewrite convert_request_eq. unfold translated_messages, dict_get at 1.
  rewrite Hc. simpl.
  erewrite for_each_fails_at; [reflexivity | exact Hpre |].
  rewrite add_content_appends, Hbad. reflexivity.
Qed.

(** X6. The arguments of a function call are not read on the request
    path: replacing them changes nothing in what the part adds to the
    content. *)
Theorem call_arguments_are_dropped
    (part call : list (string * json)) (args : json) (s : string) :
  lookup "functionCall" part = Some (JObj call) ->
  add_part rt s
    (JObj (dict_set "functionCall" (JObj (dict_set "args" args call)) part))
  = add_part rt s (JObj part).
Proof.
  intros Hcall. unfold add_part, py_contains, py_getitem.
  rewrite lookup_dict_set_same.
  rewrite (@lookup_dict_set_other "functionCall" "text") by discriminate.
  rewrite Hcall.
  destruct (lookup "text" part) as [t|]; cbn [bind ret];
    [destruct (py_concat s t) as [e|s']; cbn [bind]; [reflexivity|]|];
    unfold py_get;
    rewrite (@dict_get_dict_set_other "args" "name") by discriminate;
    reflexivity.
Qed.

End RequestParts.

Section RequestFields.

Variable rt : runtime.
Variable cfg : config.

(** X7. The fixed fields of a translated request: the model is the
    configured one and [stream] is false whatever the client sent;
    [temperature] and [max_tokens] are the values of [generationConfig],
    passed on as they are, or 0.1 and 4000 when missing. *)
Theorem request_fields_are_fixed (v out : json) :
  _convert_gemini_to_openai rt cfg v = inr out ->
  exists fields gc,
    v = JObj fields
    /\ dict_get fields "generationConfig" (JObj []) = JObj gc
    /\ json_field out "model" = Some (JStr (OPENAI_MODEL cfg))
    /\ json_field out "stream" = Some (JBool false)
    /\ json_field out "temperature"
       = Some (dict_get gc "temperature" (JFloat 1 (-1)))
    /\ json_field out "max_tokens"
       = Some (dict_get gc "maxOutputTokens" (JInt 4000)).
Proof.
  intros H. apply convert_request_inv in H as (fields & ms & -> & _ & Hb).
  apply build_request_inv in Hb
    as (gc & Hgc & [-> | (entries & _ & _ & ->)]);
    exists fields, gc; repeat split; auto.
Qed.

(** X8. [tool_choice] goes with [tools]: a translated request has either
    neither field, or a non-empty [tools] sequence together with
    [tool_choice] ["auto"]; it has neither when the request's [tools] is
    missing or falsy ([null], an empty list). *)
Theorem tool_choice_goes_with_tools (v out : json) :
  _convert_gemini_to_openai rt cfg v = inr out ->
  ((json_field out "tools" = None /\ json_field out "tool_choice" = None)
   \/ (exists entries,
         entries <> []
         /\ json_field out "tools" = Some (JArr entries)
         /\ json_field out "tool_choice" = Some (JStr "auto")))
  /\ (forall fields,
        v = JObj fields ->
        py_truthy (dict_get fields "tools" (JArr [])) = false ->
        json_field out "tools" = None /\ json_field out "tool_choice" = None).
Proof.
  intros H. apply convert_request_inv in H as (fields & ms & -> & _ & Hb).
  apply build_request_inv in Hb
    as (gc & Hgc & [-> | (entries & Hne & Ht & ->)]).
  - split; [left; split; reflexivity|]. intros; split; reflexivity.
  - split.
    + right. exists entries. repeat split. exact Hne.
    + intros fields' [= <-] Hfalsy. congruence.
Qed.

End RequestFields.

(* ===================================================================== *)
(** ** More on the response translation *)
(* ===================================================================== *)

Section ResponseTranslationMore.

Variable rt : runtime.

Lemma add_tool_call_keeps_source acc tool_call acc' :
  Forall source_part acc ->
  add_tool_call rt acc tool_call = inr acc' ->
  Forall source_part acc'.
Proof.
  intros Hacc. unfold add_tool_call.
  destruct (py_get tool_call "function" (JObj [])) as [e|function]; simpl;
    [discriminate|].
  destruct (py_get function "name" (JStr "unknown")) as [e|name]; simpl;
    [discriminate|].
  intros [= <-]. apply Forall_app. split; [exact Hacc|].
  constructor; [|constructor]. right. eexists _, _. reflexivity.
Qed.

(** The parts built from a choice are text parts and function calls. *)
Lemma response_parts_are_source choice parts :
  response_parts rt choice = inr parts -> Forall source_part parts.
Proof.
  unfold response_parts.
  destruct (py_get choice "message" (JObj [])) as [e|message]; cbn [bind];
    [discriminate|].
  destruct message as [ | b | z | m e | s | items | mf]; try discriminate.
  cbn [py_get bind ret].
  assert (Htext : exists texts,
             (if py_truthy (dict_get mf "content" JNull)
              then text <- py_getitem (JObj mf) "content" ;;
                   ret [JObj [("text", text)]]
              else ret []) = inr texts
             /\ Forall source_part texts).
  { destruct (py_truthy (dict_get mf "content" JNull)) eqn:Hc.
    - unfold dict_get in Hc. unfold py_getitem.
      destruct (lookup "content" mf) as [text|]; [|discriminate].
      eexists. split; [reflexivity|]. constructor; [|constructor].
      left. eauto.
    - eexists. split; [reflexivity | constructor]. }
  destruct Htext as (texts & -> & Htexts). cbn [bind].
  destruct (py_truthy (dict_get mf "tool_calls" JNull)).
  - destruct (py_getitem (JObj mf) "tool_calls") as [e|tc]; cbn [bind];
      [discriminate|].
    destruct (py_iter tc) as [e|tcs]; cbn [bind]; [discriminate|].
    intros H.
    eapply (@for_each_invariant _ _ (add_tool_call rt) (Forall source_part));
      [intros s x s'; apply add_tool_call_keeps_source | exact Htexts | exact H].
  - intros [= <-]. exact Htexts.
Qed.

(** A response that is translated is a mapping whose first choice is a
    mapping; the result is assembled from that choice and [usage]. *)
Lemma convert_response_inv (v out : json) :
  _convert_openai_to_gemini rt v = inr out ->
  exists fields choice rest parts usage,
    v = JObj fields
    /\ lookup "choices" fields = Some (JArr (JObj choice :: rest))
    /\ response_parts rt (JObj choice) = inr parts
    /\ dict_get fields "usage" (JObj []) = JObj usage
    /\ out = gemini_response parts
               (gemini_finish_reason
                  (dict_get choice "finish_reason" (JStr "stop")))
               (dict_get usage "prompt_tokens" (JInt 0))
               (dict_get usage "completion_tokens" (JInt 0))
               (dict_get usage "total_tokens" (JInt 0)).
Proof.
  destruct v as [ | b | z | m e | s | items | fields]; try discriminate.
  unfold _convert_openai_to_gemini. intros H. apply reraise_inr in H.
  cbn [py_get bind ret] in H.
  destruct (dict_get fields "choices" (JArr []))
    as [ | b | z | m e | [|c s] | [|choice rest] | cf] eqn:Hget;
    try discriminate; try (destruct b; discriminate);
    try (destruct z; discriminate); try (destruct m; discriminate).
  2: { destruct cf; discriminate. }
  assert (Hc : lookup "choices" fields = Some (JArr (choice :: rest))).
  { unfold dict_get in Hget.
    destruct (lookup "choices" fields); [now subst | discriminate]. }
  cbn [py_truthy negb py_first bind ret] in H.
  destruct choice as [ | b | z | m e | s | items | choice];
    try discriminate.
  destruct (response_parts rt (JObj choice)) as [e|parts] eqn:Hp;
    cbn [bind] in H; [discriminate|].
  cbn [py_get bind ret] in H.
  destruct (dict_get fields "usage" (JObj []))
    as [ | b | z | m e | s | items | usage] eqn:Hu; try discriminate.
  cbn [py_get bind ret] in H. injection H as <-.
  exists fields, choice, rest, parts, usage. auto.
Qed.

(** X9. Only the first choice is translated: dropping all the others
    from the response changes nothing in the outcome. *)
Theorem only_the_first_choice_counts
    (fields : list (string * json)) (choice : json) (rest : list json) :
  lookup "choices" fields = Some (JArr (choice :: rest)) ->
  _convert_openai_to_gemini rt (JObj fields)
  = _convert_openai_to_gemini rt
      (JObj (dict_set "choices" (JArr [choice]) fields)).
Proof.
  intros Hc.
  rewrite (convert_response_eq rt fields Hc).
  rewrite (@convert_response_eq rt (dict_set "choices" (JArr [choice]) fields)
             choice []) by apply lookup_dict_set_same.
  now rewrite dict_get_dict_set_other by discriminate.
Qed.

(** X10. A translated response always has the same frame: a mapping
    with one candidate, whose content has role ["model"], whose index is
    0, whose safety ratings are empty, whose finish reason is ["STOP"] or
    ["OTHER"] and whose parts are text parts and function calls, and
    with the usage metadata. *)
Theorem translated_response_has_one_candidate (v out : json) :
  _convert_openai_to_gemini rt v = inr out ->
  exists parts finishReason usage,
    out = JObj [("candidates",
                 JArr [JObj [("content", JObj [("parts", JArr parts);
                                               ("role", JStr "model")]);
                             ("finishReason", JStr finishReason);
                             ("index", JInt 0);
                             ("safetyRatings", JArr [])]]);
                ("usageMetadata", usage_metadata usage)]
    /\ (finishReason = "STOP" \/ finishReason = "OTHER")
    /\ Forall source_part parts.
Proof.
  intros H.
  apply convert_response_inv in H
    as (fields & choice & rest & parts & usage & -> & _ & Hp & _ & ->).
  exists parts,
    (gemini_finish_reason (dict_get choice "finish_reason" (JStr "stop"))),
    usage.
  split; [reflexivity|]. split.
  - unfold gemini_finish_reason. destruct (is_str _ "stop"); auto.
  - eapply response_parts_are_source, Hp.
Qed.

(** X11. The usage counts are copied as they are, each one [0] when it
    is missing; a response whose [usage] is present but not a mapping
    (for instance [null]) is not translated at all. *)
Theorem usage_is_copied (fields : list (string * json)) :
  (forall out,
     _convert_openai_to_gemini rt (JObj fields) = inr out ->
     exists usage,
       dict_get fields "usage" (JObj []) = JObj usage
       /\ json_field out "usageMetadata" = Some (usage_metadata usage))
  /\ (forall u,
        lookup "usage" fields = Some u ->
        (forall usage, u <> JObj usage) ->
        exists e, _convert_openai_to_gemini rt (JObj fields) = inl e).
Proof.
  assert (Hok : forall out,
             _convert_openai_to_gemini rt (JObj fields) = inr out ->
             exists usage,
               dict_get fields "usage" (JObj []) = JObj usage
               /\ json_field out "usageMetadata" = Some (usage_metadata usage)).
  { intros out H.
    apply convert_response_inv in H
      as (fields' & choice & rest & parts & usage & [= <-] & _ & _ & Hu & ->).
    exists usage. split; [exact Hu | reflexivity]. }
  split; [exact Hok|].
  intros u Hu Hnot.
  destruct (_convert_openai_to_gemini rt (JObj fields)) as [e|out] eqn:H;
    [eauto|].
  destruct (Hok out eq_refl) as (usage & Hget & _).
  unfold dict_get in Hget. rewrite Hu in Hget. now elim (Hnot usage).
Qed.

(** X12. A completion with nothing in it is not an error: when the
    message of the first choice has no content (missing, [null] or empty)
    and no tool calls, the candidate has an empty list of parts. *)
Theorem empty_completion_has_no_parts
    (fields choice message usage : list (string * json)) (rest : list json) :
  lookup "choices" fields = Some (JArr (JObj choice :: rest)) ->
  dict_get choice "message" (JObj []) = JObj message ->
  py_truthy (dict_get message "content" JNull) = false ->
  py_truthy (dict_get message "tool_calls" JNull) = false ->
  dict_get fields "usage" (JObj []) = JObj usage ->
  response_parts rt (JObj choice) = inr []
  /\ _convert_openai_to_gemini rt (JObj fields)
     = inr (gemini_response []
              (gemini_finish_reason
                 (dict_get choice "finish_reason" (JStr "stop")))
              (dict_get usage "prompt_tokens" (JInt 0))
              (dict_get usage "completion_tokens" (JInt 0))
              (dict_get usage "total_tokens" (JInt 0))).
Proof.
  intros Hc Hm Hcontent Hcalls Hu.
  assert (Hparts : response_parts rt (JObj choice) = inr []).
  { unfold response_parts. cbn [py_get bind ret]. rewrite Hm.
    cbn [py_get bind ret]. now rewrite Hcontent, Hcalls. }
  split; [exact Hparts|].
  exact (convert_response_ok rt fields Hc Hparts Hu).
Qed.

(** X13. The arguments of a tool call are decoded when they are a string
    of valid JSON and passed on as decoded; arguments that are not a
    string (a mapping already decoded, a number, [null]) are replaced by
    the empty mapping, without any error. *)
Theorem tool_call_arguments
    (tool_call function : list (string * json)) (parts : list json) :
  lookup "function" tool_call = Some (JObj function) ->
  let name := dict_get function "name" (JStr "unknown") in
  (forall doc args,
     lookup "arguments" function = Some (JStr doc) ->
     json_loads rt doc = Some args ->
     add_tool_call rt parts (JObj tool_call)
     = inr (parts ++ [function_call_part name args])%list)
  /\ (forall arguments,
        lookup "arguments" function = Some arguments ->
        (forall doc, arguments <> JStr doc) ->
        add_tool_call rt parts (JObj tool_call)
        = inr (parts ++ [function_call_part name (JObj [])])%list).
Proof.
  intros Hf name.
  assert (Hcall : forall args,
             decode_arguments rt (JObj function) = args ->
             add_tool_call rt parts (JObj tool_call)
             = inr (parts ++ [function_call_part name args])%list).
  { intros args Hdec. unfold add_tool_call, py_get at 1, dict_get at 1.
    rewrite Hf. simpl. now rewrite Hdec. }
  split.
  - intros doc args Ha Hl. apply Hcall.
    unfold decode_arguments, py_get, dict_get. rewrite Ha. simpl.
    now rewrite Hl.
  - intros arguments Ha Hnot. apply Hcall.
    unfold decode_arguments, py_get, dict_get. rewrite Ha. simpl.
    destruct arguments; try reflexivity. now elim (Hnot s).
Qed.

End ResponseTranslationMore.

(* ===================================================================== *)
(** ** The outbound call *)
(* ===================================================================== *)

Section Outbound.

Variable rt : runtime.
Variable cfg : config.
Variable requests_post :
  string -> list (string * string) -> json -> Z -> result response.

Local Abbreviation outbound := (_make_openai_request rt cfg requests_post).
Local Abbreviation posted openai_request :=
  (requests_post (outbound_url cfg) (outbound_headers cfg) openai_request 60).

(** [except requests.exceptions.RequestException] on an exception. *)
Lemma outbound_post_raises openai_request e :
  posted openai_request = inl e ->
  outbound openai_request
  = inl (match e with
         | RequestException reason =>
             Exception_ ("OpenAI request failed: " ++ reason)
         | _ => e
         end).
Proof.
  unfold _make_openai_request, outbound_url, outbound_headers.
  intros ->. now destruct e.
Qed.

Lemma outbound_200 openai_request resp :
  posted openai_request = inr resp ->
  status_code resp = 200%Z ->
  outbound openai_request
  = match response_json resp with
    | inl (RequestException reason) =>
        inl (Exception_ ("OpenAI request failed: " ++ reason))
    | outcome => outcome
    end.
Proof.
  unfold _make_openai_request, outbound_url, outbound_headers.
  intros -> Hs. cbn [bind]. rewrite Hs. reflexivity.
Qed.

Lemma outbound_not_200 openai_request resp :
  posted openai_request = inr resp ->
  status_code resp <> 200%Z ->
  outbound openai_request
  = match
      (error_data <-
         (if startswith "application/json"
               (match content_type resp with Some t => t | None => "" end)
          then response_json resp
          else ret (JStr (text resp))) ;;
       raise (Exception_ ("OpenAI API error: "
                          ++ py_format rt (JInt (status_code resp))
                          ++ " - " ++ py_format rt error_data)))
    with
    | inl (RequestException reason) =>
        inl (Exception_ ("OpenAI request failed: " ++ reason))
    | outcome => outcome
    end.
Proof.
  unfold _make_openai_request, outbound_url, outbound_headers.
  intros -> Hs. cbn [bind]. apply Z.eqb_neq in Hs. rewrite Hs. reflexivity.
Qed.

Lemma outbound_not_200_fails openai_request resp :
  posted openai_request = inr resp ->
  status_code resp <> 200%Z ->
  exists e, outbound openai_request = inl e.
Proof.
  intros Hp Hs. rewrite (outbound_not_200 Hp Hs).
  destruct (if startswith _ _ then _ else _) as [[b|m|m|m]|data];
    cbn [bind raise]; eauto.
Qed.

(** X14. The outbound call returns a value only for a response with
    status 200, and that value is the decoded body of the response; the
    call posts once, to [<base URL>/v1/chat/completions], with the bearer
    key, the translated request as body and a timeout of 60 seconds. *)
Theorem outbound_returns_only_200_bodies openai_request value :
  _make_openai_request rt cfg requests_post openai_request = inr value ->
  exists resp,
    requests_post (OPENAI_BASE_URL cfg ++ "/v1/chat/completions")
      [("Content-Type", "application/json");
       ("Authorization", "Bearer " ++ OPENAI_API_KEY cfg);
       ("User-Agent", "DMTools-LLM-Proxy/1.0")]
      openai_request 60
    = inr resp
    /\ status_code resp = 200%Z
    /\ response_json resp = inr value.
Proof.
  intros H.
  destruct (posted openai_request) as [e|resp] eqn:Hp.
  - rewrite (outbound_post_raises Hp) in H. discriminate.
  - exists resp. split; [exact Hp|].
    destruct (Z.eq_dec (status_code resp) 200) as [Hs | Hs].
    + split; [exact Hs|]. rewrite (outbound_200 Hp Hs) in H.
      destruct (response_json resp) as [[b|m|m|m]|v]; try discriminate.
      exact H.
    + destruct (outbound_not_200_fails Hp Hs) as [e He]. congruence.
Qed.

(** X15. No exception of the [requests] library leaves the outbound
    call: a failure of the post, or of decoding the body of a 200
    response, is raised again as a plain exception whose message is
    ["OpenAI request failed: "] followed by the original message. *)
Theorem request_exceptions_are_wrapped openai_request :
  (forall reason,
     _make_openai_request rt cfg requests_post openai_request
     <> inl (RequestException reason))
  /\ (forall reason,
        requests_post (outbound_url cfg) (outbound_headers cfg)
          openai_request 60 = inl (RequestException reason) ->
        _make_openai_request rt cfg requests_post openai_request
        = inl (Exception_ ("OpenAI request failed: " ++ reason)))
  /\ (forall resp reason,
        requests_post (outbound_url cfg) (outbound_headers cfg)
          openai_request 60 = inr resp ->
        status_code resp = 200%Z ->
        response_json resp = inl (RequestException reason) ->
        _make_openai_request rt cfg requests_post openai_request
        = inl (Exception_ ("OpenAI request failed: " ++ reason))).
Proof.
  split; [|split].
  - intros reason.
    destruct (posted openai_request) as [e|resp] eqn:Hp.
    + rewrite (outbound_post_raises Hp). now destruct e.
    + destruct (Z.eq_dec (status_code resp) 200) as [Hs | Hs].
      * rewrite (outbound_200 Hp Hs).
        destruct (response_json resp) as [[b|m|m|m]|v]; discriminate.
      * rewrite (outbound_not_200 Hp Hs).
        destruct (if startswith _ _ then _ else _) as [[b|m|m|m]|data];
          discriminate.
  - intros reason Hp. now rewrite (outbound_post_raises Hp).
  - intros resp reason Hp Hs Hj. now rewrite (outbound_200 Hp Hs), Hj.
Qed.

(** X16. A response with a status other than 200 is raised as
    ["OpenAI API error: <status> - <body>"]: the body is the decoded JSON
    when the content type starts with ["application/json"], and the raw
    text otherwise, also when the response has no content type. *)
Theorem upstream_error_is_reported openai_request resp :
  requests_post (outbound_url cfg) (outbound_headers cfg)
    openai_request 60 = inr resp ->
  status_code resp <> 200%Z ->
  let content_type :=
    match content_type resp with Some t => t | None => "" end in
  (forall data,
     startswith "application/json" content_type = true ->
     response_json resp = inr data ->
     _make_openai_request rt cfg requests_post openai_request
     = inl (Exception_ ("OpenAI API error: "
                        ++ py_format rt (JInt (status_code resp))
                        ++ " - " ++ py_format rt data)))
  /\ (startswith "application/json" content_type = false ->
      _make_openai_request rt cfg requests_post openai_request
      = inl (Exception_ ("OpenAI API error: "
                         ++ py_format rt (JInt (status_code resp))
                         ++ " - " ++ text resp))).
Proof.
  intros Hp Hs ct. rewrite (outbound_not_200 Hp Hs). fold ct. split.
  - intros data Hct Hj. now rewrite Hct, Hj.
  - intros Hct. now rewrite Hct.
Qed.

End Outbound.

(* ===================================================================== *)
(** ** More on the handler *)
(* ===================================================================== *)

Section HandlerMore.

Variable rt : runtime.
Variable cfg : config.
Variable requests_post :
  string -> list (string * string) -> json -> Z -> result response.
Variable py_print : log_line -> result unit.

Local Abbreviation POST := (do_POST rt cfg requests_post py_print).


(** X18. The status of the target is never passed on: when the request
    reaches the target and the post fails, or the target answers with a
    status other than 200 (429, 503, even 201), the client gets 500 with
    the error envelope, provided the handler can print its error line. *)
Theorem upstream_failures_become_500
    (req : http_request) (request_body : string)
    (gemini_request openai_request : json) :
  _is_gemini_api_request (path req) = true ->
  read_body req = inr request_body ->
  json_loads rt request_body = Some gemini_request ->
  _convert_gemini_to_openai rt cfg gemini_request = inr openai_request ->
  (exists e,
     requests_post (outbound_url cfg) (outbound_headers cfg) openai_request 60
     = inl e)
  \/ (exists resp,
        requests_post (outbound_url cfg) (outbound_headers cfg)
          openai_request 60 = inr resp
        /\ status_code resp <> 200%Z) ->
  (forall message, py_print (LogProxyError message) = inr tt) ->
  exists detail,
    POST req
    = inr {| status := 500;
             headers := json_headers;
             body := error_envelope ("Proxy error: " ++ detail) |}.
Proof.
  intros Hpath Hbody Hloads Hreq Hup Hlog.
  assert (Hfail : exists e,
             _make_openai_request rt cfg requests_post openai_request = inl e).
  { destruct Hup as [[e He] | (resp & Hp & Hs)].
    - rewrite (@outbound_post_raises rt cfg requests_post _ _ He). eauto.
    - exact (@outbound_not_200_fails rt cfg requests_post _ _ Hp Hs). }
  destruct Hfail as [e He].
  assert (Htry : exists e0,
             do_POST_try rt cfg requests_post py_print req = inl e0).
  { unfold do_POST_try. rewrite Hpath, Hbody. cbn [negb bind].
    destruct (py_print (LogIntercepting (path req))) as [e0|[]]; cbn [bind];
      [eauto|].
    cbn [py_json_loads]. rewrite Hloads. cbn [bind ret]. rewrite Hreq.
    cbn [bind].
    destruct (py_print (LogForwarding (OPENAI_MODEL cfg))) as [e0|[]];
      cbn [bind]; [eauto|].
    rewrite He. cbn [bind]. eauto. }
  destruct Htry as [e0 Htry].
  exists (exc_str rt e0). unfold do_POST. rewrite Htry, Hlog. reflexivity.
Qed.

End HandlerMore.

Section Health.

Variable rt : runtime.
Variable cfg : config.

(** X19. [GET] answers 200 for the path ["/health"] and for no other
    (not with a trailing slash, not with a query string); the model it
    reports is the model that every translated request carries. *)
Theorem health_reports_the_model_in_use (now : string) :
  (forall p, status (do_GET cfg now p) = 200%Z <-> p = "/health")
  /\ (forall p,
        p <> "/health" ->
        do_GET cfg now p
        = {| status := 404;
             headers := [("Content-Type", "application/json")];
             body := JObj [("error", JStr "Not found")] |})
  /\ (forall v out,
        _convert_gemini_to_openai rt cfg v = inr out ->
        json_field (body (do_GET cfg now "/health")) "model"
        = json_field out "model").
Proof.
  split; [|split].
  - intros p. unfold do_GET.
    destruct (String.eqb_spec p "/health") as [-> | Hne]; simpl.
    + tauto.
    + split; [discriminate | congruence].
  - intros p Hne. unfold do_GET.
    apply String.eqb_neq in Hne. now rewrite Hne.
  - intros v out H.
    apply convert_request_inv in H as (fields & ms & -> & _ & Hb).
    apply build_request_inv in Hb
      as (gc & Hgc & [-> | (entries & _ & _ & ->)]); reflexivity.
Qed.

End Health.

(** X20. Start-up goes on exactly when [OPENAI_API_KEY] is set and not
    empty; the model and the base URL are then the values of their
    variables, kept as they are even when empty, and ["gpt-4o"] and
    ["https://api.openai.com"] only when the variable is not set. *)
Theorem configuration_needs_a_key (getenv : string -> option string) :
  (forall cfg,
     load_config getenv = Some cfg
     <-> exists key,
           getenv "OPENAI_API_KEY" = Some key
           /\ key <> ""
           /\ cfg = {| OPENAI_API_KEY := key;
                       OPENAI_MODEL :=
                         match getenv "OPENAI_MODEL" with
                         | Some model => model
                         | None => "gpt-4o"
                         end;
                       OPENAI_BASE_URL :=
                         match getenv "OPENAI_BASE_URL" with
                         | Some url => url
                         | None => "https://api.openai.com"
                         end |})
  /\ (load_config getenv = None
      <-> getenv "OPENAI_API_KEY" = None
          \/ getenv "OPENAI_API_KEY" = Some "").
Proof.
  unfold load_config, os_getenv.
  destruct (getenv "OPENAI_API_KEY") as [[|c key]|]; cbn [str_nonempty negb].
  - split.
    + intros cfg. split; [discriminate|].
      intros (key & [= <-] & Hne & _). now elim Hne.
    + split; auto.
  - split.
    + intros cfg. split.
      * intros [= <-]. exists (String c key). repeat split. discriminate.
      * intros (key' & [= <-] & _ & ->). reflexivity.
    + split; [discriminate | intros [H | H]; discriminate].
  - split.
    + intros cfg. split; [discriminate | intros (key & H & _); discriminate].
    + split; auto.
Qed.

(* ===================================================================== *)
(** ** What the translations do not read *)
(* ===================================================================== *)

Section FieldsNotRead.

Variable rt : runtime.
Variable cfg : config.

(** X21. The request translation reads [contents], [tools] and
    [generationConfig] and nothing else: setting any other field of the
    request (a system instruction, safety settings, a model name) leaves
    the outcome as it is. *)
Theorem other_request_fields_are_ignored
    (fields : list (string * json)) (k : string) (v : json) :
  k <> "contents" -> k <> "tools" -> k <> "generationConfig" ->
  _convert_gemini_to_openai rt cfg (JObj (dict_set k v fields))
  = _convert_gemini_to_openai rt cfg (JObj fields).
Proof.
  intros Hc Ht Hg. rewrite !convert_request_eq. unfold translated_messages.
  rewrite !dict_get_dict_set_other by congruence. reflexivity.
Qed.

(** X22. The response translation reads [choices] and [usage] and
    nothing else: setting any other field of the response (an id, a model
    name, a fingerprint) leaves the outcome as it is. *)
Theorem other_response_fields_are_ignored
    (fields : list (string * json)) (k : string) (v : json) :
  k <> "choices" -> k <> "usage" ->
  _convert_openai_to_gemini rt (JObj (dict_set k v fields))
  = _convert_openai_to_gemini rt (JObj fields).
Proof.
  intros Hc Hu. unfold _convert_openai_to_gemini, py_get.
  rewrite !dict_get_dict_set_other by congruence. reflexivity.
Qed.

Lemma add_tool_call_adds_one acc tool_call acc' :
  add_tool_call rt acc tool_call = inr acc' -> length acc' = S (length acc).
Proof.
  unfold add_tool_call.
  destruct (py_get tool_call "function" (JObj [])) as [e|function]; simpl;
    [discriminate|].
  destruct (py_get function "name" (JStr "unknown")) as [e|name]; simpl;
    [discriminate|].
  intros [= <-]. rewrite length_app. simpl. lia.
Qed.

Lemma for_each_add_tool_call_length tool_calls acc acc' :
  for_each (add_tool_call rt) tool_calls acc = inr acc' ->
  length acc' = length acc + length tool_calls.
Proof.
  revert acc acc'. induction tool_calls as [|tc tcs IH]; intros acc acc'; simpl.
  - intros [= <-]. lia.
  - destruct (add_tool_call rt acc tc) as [e|acc1] eqn:Hc; simpl;
      [discriminate|].
    intros H. apply IH in H. apply add_tool_call_adds_one in Hc. lia.
Qed.


End FieldsNotRead.

(* ===================================================================== *)
(** ** Further runs on concrete inputs *)
(* ===================================================================== *)

Example chat_request_run :
  _convert_gemini_to_openai Sample.rt Sample.cfg Sample.chat_request
  = inr Sample.chat_request_translated.
Proof. vm_compute. reflexivity. Qed.

Example chat_response_run :
  _convert_openai_to_gemini Sample.rt (JObj Sample.chat_response)
  = inr Sample.chat_response_translated.
Proof. vm_compute. reflexivity. Qed.

Lemma request_failures_are_wrapped_witness :
  _convert_gemini_to_openai Sample.rt Sample.cfg (JArr [JInt 1])
  = inl (Exception_
           "Error converting Gemini to OpenAI format: 'list' object has no attribute 'get'").
Proof.
  apply (proj2 (request_failures_are_wrapped Sample.rt Sample.cfg)
           (JArr [JInt 1])).
  intros fields. discriminate.
Defined.

Lemma translated_messages_are_well_formed_witness :
  exists messages,
    messages_of Sample.chat_request_translated = Some (JArr messages)
    /\ Forall target_message messages.
Proof.
  apply (@translated_messages_are_well_formed Sample.rt Sample.cfg
           Sample.chat_request Sample.chat_request_translated).
  reflexivity.
Defined.

Lemma messages_follow_the_entries_witness :
  exists messages,
    messages_of Sample.chat_request_translated = Some (JArr messages)
    /\ for_each (add_content Sample.rt)
         [JObj Sample.hello_entry; JObj Sample.call_entry;
          JObj Sample.system_entry] []
       = inr messages
    /\ length messages <= 3.
Proof.
  apply (proj2 (messages_follow_the_entries Sample.rt Sample.cfg)
           [("model", JStr "gemini-pro");
            ("contents", JArr [JObj Sample.hello_entry; JObj Sample.call_entry;
                               JObj Sample.system_entry]);
            ("generationConfig", JObj [("temperature", JFloat 7 (-1))]);
            ("tools", JArr [Sample.tool_of [Sample.search_decl]])]);
    reflexivity.
Defined.

Lemma entry_text_is_concatenated_witness :
  message_content_of Sample.rt (JObj Sample.mixed_entry)
  = inr ("Weather in Oslo?" ++ LF ++ "[Function Call: unknown]")
  /\ add_content Sample.rt [] (JObj Sample.mixed_entry)
     = inr [openai_message (JStr "user")
              ("Weather in Oslo?" ++ LF ++ "[Function Call: unknown]")].
Proof.
  apply (@entry_text_is_concatenated Sample.rt Sample.mixed_entry
           Sample.mixed_parts "user" [] (or_introl eq_refl)
           eq_refl eq_refl eq_refl).
Defined.

Lemma first_bad_entry_fails_the_request_witness :
  _convert_gemini_to_openai Sample.rt Sample.cfg
    (JObj [("contents", JArr [JObj Sample.hello_entry;
                              JObj Sample.numeric_text_entry;
                              JObj Sample.call_entry])])
  = inl (Exception_ ("Error converting Gemini to OpenAI format: "
                     ++ Sample.msg (ConcatError (JInt 5)))).
Proof.
  apply (@first_bad_entry_fails_the_request Sample.rt Sample.cfg
           [("contents", JArr [JObj Sample.hello_entry;
                               JObj Sample.numeric_text_entry;
                               JObj Sample.call_entry])]
           [JObj Sample.hello_entry] [JObj Sample.call_entry]
           [openai_message (JStr "user") "hello"]
           (JObj Sample.numeric_text_entry)
           (Builtin (ConcatError (JInt 5))));
    reflexivity.
Defined.

Lemma call_arguments_are_dropped_witness :
  add_part Sample.rt "x"
    (JObj [("functionCall", JObj [("name", JStr "lookup"); ("args", JNull)])])
  = add_part Sample.rt "x" (JObj Sample.call_part).
Proof.
  apply (@call_arguments_are_dropped Sample.rt Sample.call_part
           [("name", JStr "lookup"); ("args", JObj [("q", JStr "rocq")])]
           JNull "x" eq_refl).
Defined.

Lemma request_fields_are_fixed_witness :
  exists fields gc,
    Sample.chat_request = JObj fields
    /\ dict_get fields "generationConfig" (JObj []) = JObj gc
    /\ json_field Sample.chat_request_translated "model" = Some (JStr "gpt-4o")
    /\ json_field Sample.chat_request_translated "stream" = Some (JBool false)
    /\ json_field Sample.chat_request_translated "temperature"
       = Some (dict_get gc "temperature" (JFloat 1 (-1)))
    /\ json_field Sample.chat_request_translated "max_tokens"
       = Some (dict_get gc "maxOutputTokens" (JInt 4000)).
Proof.
  apply (@request_fields_are_fixed Sample.rt Sample.cfg
           Sample.chat_request Sample.chat_request_translated).
  reflexivity.
Defined.

Lemma tool_choice_goes_with_tools_witness :
  exists entries,
    entries <> []
    /\ json_field Sample.chat_request_translated "tools" = Some (JArr entries)
    /\ json_field Sample.chat_request_translated "tool_choice"
       = Some (JStr "auto").
Proof.
  destruct (@tool_choice_goes_with_tools Sample.rt Sample.cfg
              Sample.chat_request Sample.chat_request_translated eq_refl)
    as [[[Hnone _] | Hsome] _].
  - discriminate Hnone.
  - exact Hsome.
Defined.

Lemma only_the_first_choice_counts_witness :
  _convert_openai_to_gemini Sample.rt (JObj Sample.chat_response)
  = _convert_openai_to_gemini Sample.rt
      (JObj [("id", JStr "chatcmpl-1");
             ("choices", JArr [JObj Sample.first_choice]);
             ("usage", JObj Sample.usage)]).
Proof.
  apply (@only_the_first_choice_counts Sample.rt Sample.chat_response
           (JObj Sample.first_choice)
           [JObj [("message", JObj [("content", JStr "second")])]]
           eq_refl).
Defined.

Lemma translated_response_has_one_candidate_witness :
  exists parts finishReason usage,
    Sample.chat_response_translated
    = JObj [("candidates",
             JArr [JObj [("content", JObj [("parts", JArr parts);
                                           ("role", JStr "model")]);
                         ("finishReason", JStr finishReason);
                         ("index", JInt 0);
                         ("safetyRatings", JArr [])]]);
            ("usageMetadata", usage_metadata usage)]
    /\ (finishReason = "STOP" \/ finishReason = "OTHER")
    /\ Forall source_part parts.
Proof.
  apply (@translated_response_has_one_candidate Sample.rt
           (JObj Sample.chat_response) Sample.chat_response_translated).
  reflexivity.
Defined.

(** A response whose [usage] is [null]. *)
Lemma usage_is_copied_witness :
  (exists e,
     _convert_openai_to_gemini Sample.rt
       (JObj [("choices", JArr [JObj Sample.first_choice]); ("usage", JNull)])
     = inl e)
  /\ exists usage,
       dict_get Sample.chat_response "usage" (JObj []) = JObj usage
       /\ json_field Sample.chat_response_translated "usageMetadata"
          = Some (usage_metadata usage).
Proof.
  split.
  - apply (proj2 (usage_is_copied Sample.rt
                    [("choices", JArr [JObj Sample.first_choice]);
                     ("usage", JNull)]) JNull eq_refl).
    intros usage. discriminate.
  - apply (proj1 (usage_is_copied Sample.rt Sample.chat_response)
             Sample.chat_response_translated).
    reflexivity.
Defined.

(** A completion cut before its first token. *)
Lemma empty_completion_has_no_parts_witness :
  _convert_openai_to_gemini Sample.rt
    (JObj [("choices",
            JArr [JObj [("message", JObj [("content", JStr "")]);
                        ("finish_reason", JStr "length")]])])
  = inr (gemini_response [] "OTHER" (JInt 0) (JInt 0) (JInt 0)).
Proof.
  apply (@empty_completion_has_no_parts Sample.rt
           [("choices",
             JArr [JObj [("message", JObj [("content", JStr "")]);
                         ("finish_reason", JStr "length")]])]
           [("message", JObj [("content", JStr "")]);
            ("finish_reason", JStr "length")]
           [("content", JStr "")] [] []
           eq_refl eq_refl eq_refl eq_refl eq_refl).
Defined.

Lemma tool_call_arguments_witness :
  add_tool_call Sample.rt [] (JObj Sample.decoded_call)
  = inr [function_call_part (JStr "search") (JObj [])]
  /\ add_tool_call Sample.rt [] (JObj Sample.good_call)
     = inr [function_call_part (JStr "search") (JArr [JInt 1; JInt 2])].
Proof.
  split.
  - apply (proj2 (@tool_call_arguments Sample.rt Sample.decoded_call
                    [("name", JStr "search");
                     ("arguments", JObj [("q", JStr "rocq")])]
                    [] eq_refl)
             (JObj [("q", JStr "rocq")]) eq_refl).
    intros doc. discriminate.
  - apply (proj1 (@tool_call_arguments Sample.rt Sample.good_call
                    [("name", JStr "search"); ("arguments", JStr "[1, 2]")]
                    [] eq_refl)
             "[1, 2]" (JArr [JInt 1; JInt 2]) eq_refl eq_refl).
Defined.

Lemma outbound_returns_only_200_bodies_witness :
  exists resp,
    Sample.post_replying (Sample.reply 200 (JObj Sample.chat_response))
      "https://api.openai.com/v1/chat/completions"
      [("Content-Type", "application/json");
       ("Authorization", "Bearer sk-test");
       ("User-Agent", "DMTools-LLM-Proxy/1.0")]
      Sample.chat_request_translated 60
    = inr resp
    /\ status_code resp = 200%Z
    /\ response_json resp = inr (JObj Sample.chat_response).
Proof.
  apply (@outbound_returns_only_200_bodies Sample.rt Sample.cfg
           (Sample.post_replying
              (Sample.reply 200 (JObj Sample.chat_response)))
           Sample.chat_request_translated (JObj Sample.chat_response)).
  reflexivity.
Defined.

Lemma request_exceptions_are_wrapped_witness :
  _make_openai_request Sample.rt Sample.cfg
    (Sample.post_failing "connection refused") Sample.chat_request_translated
  = inl (Exception_ "OpenAI request failed: connection refused").
Proof.
  apply (proj1 (proj2 (request_exceptions_are_wrapped Sample.rt Sample.cfg
                         (Sample.post_failing "connection refused")
                         Sample.chat_request_translated))
           "connection refused").
  reflexivity.
Defined.

Lemma upstream_error_is_reported_witness :
  _make_openai_request Sample.rt Sample.cfg
    (Sample.post_replying Sample.unavailable) Sample.chat_request_translated
  = inl (Exception_ "OpenAI API error: 503 - <h1>Service Unavailable</h1>").
Proof.
  apply (proj2 (@upstream_error_is_reported Sample.rt Sample.cfg
                  (Sample.post_replying Sample.unavailable)
                  Sample.chat_request_translated Sample.unavailable
                  eq_refl ltac:(discriminate))).
  reflexivity.
Defined.


(** The target answers 201: still an error for the proxy. *)
Lemma upstream_failures_become_500_witness :
  exists detail,
    do_POST Sample.rt Sample.cfg
      (Sample.post_replying (Sample.reply 201 (JObj Sample.chat_response)))
      Sample.stdout_open Sample.gemini_post
    = inr {| status := 500;
             headers := json_headers;
             body := error_envelope ("Proxy error: " ++ detail) |}.
Proof.
  apply (@upstream_failures_become_500 Sample.rt Sample.cfg
           (Sample.post_replying (Sample.reply 201 (JObj Sample.chat_response)))
           Sample.stdout_open
           Sample.gemini_post (Sample.dq "{'contents': []}")
           (JObj [("contents", JArr [])])
           (JObj (base_request Sample.cfg [] []))
           eq_refl eq_refl eq_refl eq_refl).
  - right. exists (Sample.reply 201 (JObj Sample.chat_response)).
    split; [reflexivity | discriminate].
  - intros message. reflexivity.
Defined.

Lemma health_reports_the_model_in_use_witness :
  status (do_GET Sample.cfg "2025-01-01T00:00:00" "/health/") = 404%Z
  /\ json_field (body (do_GET Sample.cfg "2025-01-01T00:00:00" "/health"))
       "model"
     = json_field Sample.chat_request_translated "model".
Proof.
  destruct (health_reports_the_model_in_use Sample.rt Sample.cfg
              "2025-01-01T00:00:00")
    as (_ & Hother & Hmodel).
  split.
  - rewrite (Hother "/health/"); [reflexivity | discriminate].
  - apply (Hmodel Sample.chat_request). reflexivity.
Defined.

Lemma configuration_needs_a_key_witness :
  load_config Sample.environment
  = Some {| OPENAI_API_KEY := "sk-test";
            OPENAI_MODEL := "gpt-4o";
            OPENAI_BASE_URL := "http://localhost:11434" |}
  /\ load_config (fun _ => Some "") = None.
Proof.
  split.
  - apply (proj1 (configuration_needs_a_key Sample.environment)).
    exists "sk-test". repeat split. discriminate.
  - apply (proj2 (configuration_needs_a_key (fun _ => Some ""))).
    right. reflexivity.
Defined.

Lemma other_request_fields_are_ignored_witness :
  _convert_gemini_to_openai Sample.rt Sample.cfg
    (JObj [("contents", JArr [JObj Sample.hello_entry]);
           ("systemInstruction", JObj [("parts", JArr [])])])
  = _convert_gemini_to_openai Sample.rt Sample.cfg
      (JObj [("contents", JArr [JObj Sample.hello_entry])]).
Proof.
  apply (@other_request_fields_are_ignored Sample.rt Sample.cfg
           [("contents", JArr [JObj Sample.hello_entry])]
           "systemInstruction" (JObj [("parts", JArr [])]));
    discriminate.
Defined.

Lemma other_response_fields_are_ignored_witness :
  _convert_openai_to_gemini Sample.rt
    (JObj (dict_set "id" (JStr "chatcmpl-2") Sample.chat_response))
  = _convert_openai_to_gemini Sample.rt (JObj Sample.chat_response).
Proof.
  apply (@other_response_fields_are_ignored Sample.rt Sample.chat_response
           "id" (JStr "chatcmpl-2"));
    discriminate.
Defined.

